(** * RegressionGenerator: a generated regression problem replayed as a stream

    Shallow embedding of [skmultiflow/data/generators/regression_generator.py].
    The class keeps the two arrays returned by scikit-learn's [make_regression]
    and hands out consecutive row slices of them, moving a cursor
    ([instance_index]) forward by the requested batch size.

    - Python integers are [Z].
    - A NumPy array is its shape together with its C-ordered buffer.  The
      entries are floating point numbers on which the class performs no
      arithmetic, so the entry type is left abstract ([val], with the [zero]
      that an enlarging [resize] pads with).
    - An exception is [None] of an [option]; Python's [None] stored in an
      attribute is [None] of an [option ndarray].
    - A method is a function from the object to its return value and the
      object after the call. *)

From Stdlib Require Import String Ascii DecimalString DecimalZ DecimalPos.
From Stdlib Require Import ZArith List Lia Bool Sorted.
Import ListNotations.

Local Open Scope Z_scope.

(** ** NumPy arrays *)

Section Numpy.

Context {val : Type}.
Variable zero : val.

(** [owndata] is NumPy's OWNDATA flag: a view (the result of a slice or of
    [np.squeeze]) does not own its buffer and cannot change its size in
    place. *)
Record ndarray := mk_ndarray {
  shape : list nat;
  data : list val;
  owndata : bool
}.

Definition prod_shape (s : list nat) : nat := fold_right Nat.mul 1%nat s.

(** [a.size] *)
Definition size (a : ndarray) : nat := prod_shape (shape a).

(** The buffer holds exactly [a.size] entries. *)
Definition well_shaped (a : ndarray) : Prop := length (data a) = size a.

(** Python's normalisation of one bound of a slice with step 1 over a
    dimension of length [len] ([slice.indices]): a negative bound counts
    from the end, and every bound is clipped to [0, len]. *)
Definition slice_bound (len i : Z) : Z :=
  if i <? 0 then Z.max (i + len) 0 else Z.min i len.

(** First index and number of indices selected by [start:stop]. *)
Definition slice_range (len : nat) (start stop : Z) : nat * nat :=
  let s := slice_bound (Z.of_nat len) start in
  let e := slice_bound (Z.of_nat len) stop in
  (Z.to_nat s, Z.to_nat (Z.max 0 (e - s))).

(** The [count] consecutive rows of [rowsize] entries that start at row
    [first] of a C-ordered buffer. *)
Definition row_block (rowsize : nat) (d : list val) (first count : nat) : list val :=
  firstn (count * rowsize) (skipn (first * rowsize) d).

(** [a[start:stop, :]].  Indexing with two indices needs at least two
    dimensions: on a 0-d or 1-d array NumPy raises IndexError ("too many
    indices"), here [None].  A slice never raises for being out of range.
    The result is a view. *)
Definition getitem_rows (a : ndarray) (start stop : Z) : option ndarray :=
  match shape a with
  | r :: c :: rest =>
      let '(first, count) := slice_range r start stop in
      Some {| shape := count :: c :: rest;
              data := row_block (prod_shape (c :: rest)) (data a) first count;
              owndata := false |}
  | _ => None
  end.

(** [a.flatten()]: a fresh 1-d copy in C order. *)
Definition flatten (a : ndarray) : ndarray :=
  {| shape := [size a]; data := data a; owndata := true |}.

(** [a.resize((rows, cols))], in place.  With an unchanged total size only
    the shape changes; otherwise the buffer is reallocated, which NumPy
    refuses with ValueError ([None]) for an array that does not own its
    data, and a larger buffer is padded with zeros.  A negative dimension
    is a ValueError as well. *)
Definition resize (a : ndarray) (rows : nat) (cols : Z) : option ndarray :=
  if cols <? 0 then None
  else
    let new_shape := [rows; Z.to_nat cols] in
    let newsize := prod_shape new_shape in
    if Nat.eqb newsize (size a) then
      Some {| shape := new_shape; data := data a; owndata := owndata a |}
    else if owndata a then
      Some {| shape := new_shape;
              data := firstn newsize (data a ++ repeat zero (newsize - size a));
              owndata := true |}
    else None.

End Numpy.

Arguments ndarray : clear implicits.

(** ** The class *)

Section Generator.

Context {val : Type}.
Variable zero : val.

(** [sklearn.datasets.make_regression], the external collaborator: called
    with [(n_samples, n_features, n_informative, n_targets)] it draws a
    random problem and returns the pair [(X, y)], or raises ([None]).  Its
    draw is left arbitrary. *)
Variable make_regression : Z -> Z -> Z -> Z -> option (ndarray val * ndarray val).

(** What scikit-learn documents about a returned pair: [X] has shape
    [(n_samples, n_features)]; [y] has shape [(n_samples,)] for a single
    target and [(n_samples, n_targets)] otherwise. *)
Definition make_regression_shapes (n_samples n_features n_targets : Z)
    (X0 y0 : ndarray val) : Prop :=
  0 <= n_samples /\ 0 <= n_features /\ 0 <= n_targets /\
  shape X0 = [Z.to_nat n_samples; Z.to_nat n_features] /\
  well_shaped X0 /\
  shape y0 = (if n_targets =? 1 then [Z.to_nat n_samples]
              else [Z.to_nat n_samples; Z.to_nat n_targets]) /\
  well_shaped y0.

Record RegressionGenerator := mk_generator {
  X : ndarray val;
  y : ndarray val;
  num_samples : Z;
  num_features : Z;
  num_target_tasks : Z;
  num_informative : Z;
  instance_index : Z;
  current_instance_y : option (ndarray val);
  current_instance_x : option (ndarray val)
}.

Definition set_instance_index (self : RegressionGenerator) (v : Z) :=
  mk_generator (X self) (y self) (num_samples self) (num_features self)
    (num_target_tasks self) (num_informative self) v
    (current_instance_y self) (current_instance_x self).

Definition set_current_instance_x (self : RegressionGenerator) (v : option (ndarray val)) :=
  mk_generator (X self) (y self) (num_samples self) (num_features self)
    (num_target_tasks self) (num_informative self) (instance_index self)
    (current_instance_y self) v.

Definition set_current_instance_y (self : RegressionGenerator) (v : option (ndarray val)) :=
  mk_generator (X self) (y self) (num_samples self) (num_features self)
    (num_target_tasks self) (num_informative self) (instance_index self)
    v (current_instance_x self).

(** A method returns its value and the object after the call. *)
Definition method (A : Type) : Type := RegressionGenerator -> A * RegressionGenerator.

(** Stands for the [None] that lines 35-36 store in [self.X] and [self.y]
    until [__configure] assigns them.  No method runs in between, and when
    [__configure] raises no object is built, so it is never read. *)
Definition unset : ndarray val := mk_ndarray [] [] false.

(** Lines 69-75. *)
Definition __configure (self : RegressionGenerator)
    (n_samples n_features n_informative n_targets : Z) : option RegressionGenerator :=
  match make_regression n_samples n_features n_informative n_targets with
  | None => None
  | Some (X0, y0) =>
      match resize zero y0 (size y0) n_targets with
      | None => None
      | Some y1 =>
          Some (mk_generator X0 y1 n_samples n_features n_targets n_informative
                  (instance_index self)
                  (current_instance_y self) (current_instance_x self))
      end
  end.

(** Lines 33-44: the constructor; [None] when it raises. *)
Definition __init__ (n_samples n_features n_informative n_targets : Z)
    : option RegressionGenerator :=
  __configure (mk_generator unset unset 0 0 0 0 0 None None)
    n_samples n_features n_informative n_targets.

Definition estimated_remaining_instances : method Z :=
  fun self => (num_samples self - instance_index self, self).

Definition has_more_instances : method bool :=
  fun self => (num_samples self - instance_index self >? 0, self).

(** The [except IndexError] branch, lines 108-109. *)
Definition on_index_error (self : RegressionGenerator) : RegressionGenerator :=
  set_current_instance_y (set_current_instance_x self None) None.

(** Lines 99-110.  The cursor is moved first; both slices are then taken
    from the moved cursor back to where it was. *)
Definition next_instance (batch_size : Z)
    : method (option (ndarray val) * option (ndarray val)) :=
  fun self =>
    let self := set_instance_index self (instance_index self + batch_size) in
    let self :=
      match getitem_rows (X self) (instance_index self - batch_size) (instance_index self) with
      | None => on_index_error self
      | Some cx =>
          let self := set_current_instance_x self (Some cx) in
          match getitem_rows (y self) (instance_index self - batch_size) (instance_index self) with
          | None => on_index_error self
          | Some cy =>
              let self := set_current_instance_y self (Some cy) in
              if num_target_tasks self <? 2
              then set_current_instance_y self (Some (flatten cy))
              else self
          end
      end in
    ((current_instance_x self, current_instance_y self), self).

Definition is_restartable : method bool := fun self => (true, self).

(** Lines 115-116: the body is [pass]. *)
Definition restart : method unit := fun self => (tt, self).

Definition get_num_attributes : method Z := fun self => (num_features self, self).

Definition get_num_targets : method Z := fun self => (num_target_tasks self, self).

Definition get_num_targeting_tasks : method Z := fun self => (num_target_tasks self, self).

Definition get_last_instance : method (option (ndarray val) * option (ndarray val)) :=
  fun self => ((current_instance_x self, current_instance_y self), self).

(** *** Sequences of calls *)

Inductive call : Type :=
| NextInstance (batch_size : Z)
| Restart
| IsRestartable
| EstimatedRemainingInstances
| HasMoreInstances
| GetNumAttributes
| GetNumTargets
| GetLastInstance.

(** The object after one call. *)
Definition exec (c : call) (self : RegressionGenerator) : RegressionGenerator :=
  match c with
  | NextInstance b => snd (next_instance b self)
  | Restart => snd (restart self)
  | IsRestartable => snd (is_restartable self)
  | EstimatedRemainingInstances => snd (estimated_remaining_instances self)
  | HasMoreInstances => snd (has_more_instances self)
  | GetNumAttributes => snd (get_num_attributes self)
  | GetNumTargets => snd (get_num_targets self)
  | GetLastInstance => snd (get_last_instance self)
  end.

(** The object after a sequence of calls, first call first. *)
Definition run (cs : list call) (self : RegressionGenerator) : RegressionGenerator :=
  fold_left (fun g c => exec c g) cs self.

(** The batch size a call asks for; the calls that read nothing ask for 0. *)
Definition requested (c : call) : Z :=
  match c with
  | NextInstance b => b
  | _ => 0
  end.

Definition total_requested (cs : list call) : Z :=
  fold_right (fun c acc => requested c + acc) 0 cs.

Definition nonnegative_batches (cs : list call) : Prop :=
  Forall (fun c => 0 <= requested c) cs.

(** [k] calls of [next_instance(1)]: the batches returned, in order, and the
    object afterwards. *)
Fixpoint read_one_by_one (k : nat) (self : RegressionGenerator)
    : list (option (ndarray val) * option (ndarray val)) * RegressionGenerator :=
  match k with
  | O => ([], self)
  | S k' =>
      let '(batch, self1) := next_instance 1 self in
      let '(rest, self2) := read_one_by_one k' self1 in
      (batch :: rest, self2)
  end.

(** Shape and contents of a returned array, without its ownership flag. *)
Definition contents (a : option (ndarray val)) : option (list nat * list val) :=
  option_map (fun a => (shape a, data a)) a.

(** Two objects agree on everything but the cursor and the last batch. *)
Definition same_problem (g g' : RegressionGenerator) : Prop :=
  X g' = X g /\ y g' = y g /\ num_samples g' = num_samples g /\
  num_features g' = num_features g /\
  num_target_tasks g' = num_target_tasks g /\
  num_informative g' = num_informative g.

End Generator.


Arguments RegressionGenerator : clear implicits.
Arguments method : clear implicits.

(** ** A concrete problem

    A deterministic stand-in for one draw of [make_regression], with integer
    entries so that rows can be told apart: entry [j] of row [i] of [X] is
    [i * n_features + j], and the targets count up from 1000.  As in
    scikit-learn, more informative features than features is an error. *)

Definition count_from (start : Z) (len : nat) : list Z :=
  map (fun k => start + Z.of_nat k) (seq 0 len).

Definition sample_regression (n_samples n_features n_informative n_targets : Z)
    : option (ndarray Z * ndarray Z) :=
  if (n_samples <? 0) || (n_features <? 0) || (n_targets <? 0)
     || (n_features <? n_informative)
  then None
  else
    let n := Z.to_nat n_samples in
    let f := Z.to_nat n_features in
    let t := Z.to_nat n_targets in
    Some (mk_ndarray [n; f] (count_from 0 (n * f)) true,
          mk_ndarray (if n_targets =? 1 then [n] else [n; t])
            (count_from 1000 (n * t)) true).

(** The arrays it returns for 10 samples, 3 features and 1 target, and for
    3 samples, 2 features and 2 targets. *)
Definition single_target_X : ndarray Z :=
  mk_ndarray [10; 3]%nat (count_from 0 30) true.

Definition single_target_y : ndarray Z :=
  mk_ndarray [10]%nat (count_from 1000 10) true.

Definition two_targets_X : ndarray Z :=
  mk_ndarray [3; 2]%nat (count_from 0 6) true.

Definition two_targets_y : ndarray Z :=
  mk_ndarray [3; 2]%nat (count_from 1000 6) true.

(** [RegressionGenerator(n_samples=10, n_features=3, n_informative=2, n_targets=1)] *)
Definition single_target : option (RegressionGenerator Z) :=
  __init__ 0 sample_regression 10 3 2 1.

(** [RegressionGenerator(n_samples=3, n_features=2, n_informative=1, n_targets=2)] *)
Definition two_targets : option (RegressionGenerator Z) :=
  __init__ 0 sample_regression 3 2 1 2.

(** The claim that a request running past the last sample answers with a pair
    of empty results: an empty result is the [None] of the fallback branch or
    an array without entries. *)
Definition is_empty_result {val : Type} (a : option (ndarray val)) : bool :=
  match a with
  | None => true
  | Some a => Nat.eqb (length (data a)) 0
  end.

Definition is_empty_pair {val : Type}
    (r : option (ndarray val) * option (ndarray val)) : bool :=
  is_empty_result (fst r) && is_empty_result (snd r).

(** Shapes and contents of the two arrays of a returned batch. *)
Definition batch_contents {val : Type}
    (r : option (ndarray val) * option (ndarray val))
    : option (list nat * list val) * option (list nat * list val) :=
  (contents (fst r), contents (snd r)).

(** A call other than [next_instance]. *)
Definition reads_nothing (c : call) : bool :=
  match c with
  | NextInstance _ => false
  | _ => true
  end.

(** The entries of a returned array; nothing for the [None] of the fallback
    branch. *)
Definition batch_data {val : Type} (a : option (ndarray val)) : list val :=
  match a with
  | None => []
  | Some a => data a
  end.

(** A draw whose [y] is a view, as [np.squeeze] returns it: the same entries
    as [sample_regression], but [y] does not own its buffer. *)
Definition squeezed_regression (n_samples n_features n_informative n_targets : Z)
    : option (ndarray Z * ndarray Z) :=
  match sample_regression n_samples n_features n_informative n_targets with
  | None => None
  | Some (X0, y0) => Some (X0, mk_ndarray (shape y0) (data y0) false)
  end.

(** ** The descriptive methods *)

Section Describe.

Context {val : Type}.

(** Comparison of two entries: [a <= b] and [a == b]. *)
Variable val_leb : val -> val -> bool.
Variable val_eqb : val -> val -> bool.

Fixpoint insert_sorted (x : val) (l : list val) : list val :=
  match l with
  | [] => [x]
  | h :: t => if val_leb x h then x :: l else h :: insert_sorted x t
  end.

(** The entries in ascending order. *)
Definition sort_entries (l : list val) : list val :=
  fold_right insert_sorted [] l.

(** Keeps an entry when it differs from the entry before it. *)
Fixpoint drop_repeats_after (prev : val) (l : list val) : list val :=
  match l with
  | [] => []
  | a :: t =>
      if val_eqb prev a then drop_repeats_after a t
      else a :: drop_repeats_after a t
  end.

Definition drop_repeats (l : list val) : list val :=
  match l with
  | [] => []
  | a :: t => a :: drop_repeats_after a t
  end.

(** [np.unique(a)]: the entries of the flattened array, sorted, each value
    once. *)
Definition np_unique (a : ndarray val) : ndarray val :=
  let u := drop_repeats (sort_entries (data a)) in
  mk_ndarray [length u] u true.

(** Lines 151-152. *)
Definition get_classes : method val (ndarray val) :=
  fun self => (np_unique (y self), self).

(** The comparisons are those of a total order. *)
Definition total_order : Prop :=
  (forall a b, val_eqb a b = true <-> a = b) /\
  (forall a b, val_leb a b = true \/ val_leb b a = true) /\
  (forall a b c, val_leb a b = true -> val_leb b c = true -> val_leb a c = true) /\
  (forall a b, val_leb a b = true -> val_leb b a = true -> a = b).

(** [a < b] *)
Definition strictly_below (a b : val) : Prop := val_leb a b = true /\ a <> b.

End Describe.

(** [str(z)] of a Python integer: its decimal digits, after a minus sign
    when it is negative. *)
Definition str (z : Z) : string := NilZero.string_of_int (Z.to_int z).

(** Lines 157-160. *)
Definition get_info {val : Type} : method val string :=
  fun self =>
    (("RegressionGenerator: n_samples: " ++ str (num_samples self)
      ++ " - n_features: " ++ str (num_features self)
      ++ " - n_informative: " ++ str (num_informative self)
      ++ " - n_targets: " ++ str (num_target_tasks self))%string,
     self).

(** Lines 148-149 and 154-155. *)
Definition get_plot_name {val : Type} : method val string :=
  fun self => ("Regression dataset"%string, self).

Definition get_class_type {val : Type} : method val string :=
  fun self => ("stream"%string, self).

(** The characters [str] produces. *)
Definition is_digit_or_minus (c : ascii) : bool :=
  match c with
  | "0" | "1" | "2" | "3" | "4" | "5" | "6" | "7" | "8" | "9" | "-" => true
  | _ => false
  end%char.

Fixpoint string_forall (p : ascii -> bool) (s : string) : bool :=
  match s with
  | EmptyString => true
  | String c s' => p c && string_forall p s'
  end.

(** * Properties *)

(** ** Slices and buffers *)

Section BufferFacts.

Context {val : Type}.
Variable zero : val.

Lemma slice_bound_range (len i : Z) :
  0 <= len -> 0 <= slice_bound len i <= len.
Proof.
  intros Hlen. unfold slice_bound.
  destruct (i <? 0) eqn:E; [apply Z.ltb_lt in E | apply Z.ltb_ge in E]; lia.
Qed.

Lemma slice_bound_nonneg (len i : Z) :
  0 <= len -> 0 <= i -> slice_bound len i = Z.min i len.
Proof.
  intros _ Hi. unfold slice_bound.
  destruct (i <? 0) eqn:E; [apply Z.ltb_lt in E; lia | reflexivity].
Qed.

(** Whatever the bounds, a slice selects indices of the dimension. *)
Lemma slice_range_within (len : nat) (start stop : Z) :
  (fst (slice_range len start stop) + snd (slice_range len start stop) <= len)%nat.
Proof.
  unfold slice_range; cbn [fst snd].
  pose proof (slice_bound_range (Z.of_nat len) start ltac:(lia)).
  pose proof (slice_bound_range (Z.of_nat len) stop ltac:(lia)).
  lia.
Qed.

Lemma slice_range_nonneg (len : nat) (start stop : Z) :
  0 <= start <= stop ->
  slice_range len start stop =
    (Z.to_nat (Z.min start (Z.of_nat len)),
     (Z.to_nat (Z.min stop (Z.of_nat len)) - Z.to_nat (Z.min start (Z.of_nat len)))%nat).
Proof.
  intros H. unfold slice_range.
  rewrite !slice_bound_nonneg by lia. f_equal. lia.
Qed.

Lemma slice_range_inside (len : nat) (start stop : Z) :
  0 <= start <= stop -> stop <= Z.of_nat len ->
  slice_range len start stop = (Z.to_nat start, Z.to_nat (stop - start)).
Proof.
  intros H Hs. rewrite slice_range_nonneg by lia. f_equal; lia.
Qed.

Lemma length_row_block (rowsize : nat) (d : list val) (first count : nat) :
  ((first + count) * rowsize <= length d)%nat ->
  length (row_block rowsize d first count) = (count * rowsize)%nat.
Proof.
  intros H. unfold row_block. rewrite length_firstn, length_skipn. nia.
Qed.

(** Rows that lie inside a buffer are not affected by what is appended to it. *)
Lemma row_block_app (rowsize : nat) (d pad : list val) (first count : nat) :
  ((first + count) * rowsize <= length d)%nat ->
  row_block rowsize (d ++ pad) first count = row_block rowsize d first count.
Proof.
  intros H. unfold row_block.
  rewrite skipn_app, firstn_app, length_skipn.
  replace (count * rowsize - (length d - first * rowsize))%nat with 0%nat by nia.
  cbn [firstn]. destruct (skipn (first * rowsize - length d) pad); apply app_nil_r.
Qed.

(** Reading a buffer row by row yields the buffer. *)
Lemma concat_row_blocks (rowsize : nat) (d : list val) (first n : nat) :
  length d = ((first + n) * rowsize)%nat ->
  concat (map (fun k => row_block rowsize d k 1) (seq first n)) =
  skipn (first * rowsize) d.
Proof.
  revert first. induction n as [|n IH]; intros first Hlen; cbn [seq map concat].
  - symmetry. apply skipn_all2. lia.
  - rewrite IH by lia. unfold row_block.
    replace (S first * rowsize)%nat with (1 * rowsize + first * rowsize)%nat by lia.
    rewrite <- skipn_skipn. apply firstn_skipn.
Qed.

(** A successful [resize] sets the requested shape; when the array is not
    shrunk it keeps the entries and appends zeros. *)
Lemma resize_shape (a a' : ndarray val) (rows : nat) (cols : Z) :
  resize zero a rows cols = Some a' -> shape a' = [rows; Z.to_nat cols].
Proof.
  unfold resize. destruct (cols <? 0); [discriminate|].
  destruct (Nat.eqb _ _); [|destruct (owndata a)]; intros H;
    inversion H; reflexivity.
Qed.

Lemma resize_data (a a' : ndarray val) (rows : nat) (cols : Z) :
  resize zero a rows cols = Some a' ->
  well_shaped a ->
  (size a <= rows * Z.to_nat cols)%nat ->
  data a' = data a ++ repeat zero (rows * Z.to_nat cols - size a).
Proof.
  unfold resize, well_shaped. destruct (cols <? 0); [discriminate|].
  cbn [prod_shape fold_right]. rewrite Nat.mul_1_r.
  destruct (Nat.eqb _ _) eqn:E; [|destruct (owndata a)]; intros H Hwf Hle;
    inversion H; subst; cbn [data].
  - apply Nat.eqb_eq in E. rewrite E, Nat.sub_diag. symmetry. apply app_nil_r.
  - apply firstn_all2. rewrite length_app, repeat_length. lia.
Qed.

End BufferFacts.

(** ** The object across calls *)

Section GeneratorFacts.

Context {val : Type}.
Variable zero : val.
Variable make_regression : Z -> Z -> Z -> Z -> option (ndarray val * ndarray val).

Implicit Types (g self : RegressionGenerator val) (cs : list call).

Lemma same_problem_refl g : same_problem g g.
Proof. repeat split. Qed.

Lemma same_problem_trans g1 g2 g3 :
  same_problem g1 g2 -> same_problem g2 g3 -> same_problem g1 g3.
Proof.
  unfold same_problem. intros (?&?&?&?&?&?) (?&?&?&?&?&?).
  repeat split; congruence.
Qed.

Lemma next_instance_same_problem (b : Z) g :
  same_problem g (snd (next_instance b g)).
Proof.
  unfold next_instance, on_index_error; cbn.
  destruct (getitem_rows (X g) _ _); cbn; [|repeat split].
  destruct (getitem_rows (y g) _ _); cbn; [|repeat split].
  destruct (num_target_tasks g <? 2); repeat split.
Qed.

Lemma next_instance_cursor (b : Z) g :
  instance_index (snd (next_instance b g)) = instance_index g + b.
Proof.
  unfold next_instance, on_index_error; cbn.
  destruct (getitem_rows (X g) _ _); cbn; [|reflexivity].
  destruct (getitem_rows (y g) _ _); cbn; [|reflexivity].
  destruct (num_target_tasks g <? 2); reflexivity.
Qed.

(** The pair returned is the pair stored. *)
Lemma next_instance_stored (b : Z) g :
  (current_instance_x (snd (next_instance b g)),
   current_instance_y (snd (next_instance b g))) = fst (next_instance b g).
Proof. reflexivity. Qed.

Lemma exec_same_problem (c : call) g : same_problem g (exec c g).
Proof.
  destruct c; try apply same_problem_refl. apply next_instance_same_problem.
Qed.

Lemma exec_cursor (c : call) g :
  instance_index (exec c g) = instance_index g + requested c.
Proof.
  destruct c; cbn [exec requested]; try (cbn; lia). apply next_instance_cursor.
Qed.

Lemma exec_reads_nothing (c : call) g : reads_nothing c = true -> exec c g = g.
Proof. destruct c; [discriminate | reflexivity ..]. Qed.

Lemma run_cons (c : call) cs g : run (c :: cs) g = run cs (exec c g).
Proof. reflexivity. Qed.

Lemma run_same_problem cs g : same_problem g (run cs g).
Proof.
  revert g. induction cs as [|c cs IH]; intros g.
  - apply same_problem_refl.
  - rewrite run_cons.
    eapply same_problem_trans; [apply exec_same_problem | apply IH].
Qed.

Lemma run_cursor cs g :
  instance_index (run cs g) = instance_index g + total_requested cs.
Proof.
  revert g. induction cs as [|c cs IH]; intros g.
  - cbn. lia.
  - rewrite run_cons, IH, exec_cursor. unfold total_requested.
    cbn [fold_right]. lia.
Qed.

Lemma run_reads_nothing cs g : forallb reads_nothing cs = true -> run cs g = g.
Proof.
  revert g. induction cs as [|c cs IH]; intros g H; [reflexivity|].
  cbn [forallb] in H. apply andb_true_iff in H as [Hc Hcs].
  rewrite run_cons, exec_reads_nothing by exact Hc. apply IH, Hcs.
Qed.

Lemma total_requested_nonneg cs : nonnegative_batches cs -> 0 <= total_requested cs.
Proof.
  induction 1 as [|c cs Hc _ IH]; cbn [total_requested fold_right]; [lia|].
  fold (total_requested cs). lia.
Qed.

(** What a call returns when both arrays are two-dimensional.  The slice of
    [X] and the slice of [y] are taken between the same two cursor
    positions, each clipped to the rows of its own array. *)
Lemma next_instance_batch (b : Z) g (rx cx ry cy : nat) :
  shape (X g) = [rx; cx] -> shape (y g) = [ry; cy] ->
  let lo := instance_index g in
  let hi := instance_index g + b in
  contents (fst (fst (next_instance b g))) =
    Some ([snd (slice_range rx lo hi); cx],
          row_block cx (data (X g)) (fst (slice_range rx lo hi)) (snd (slice_range rx lo hi))) /\
  contents (snd (fst (next_instance b g))) =
    Some (if num_target_tasks g <? 2
          then [(snd (slice_range ry lo hi) * cy)%nat]
          else [snd (slice_range ry lo hi); cy],
          row_block cy (data (y g)) (fst (slice_range ry lo hi)) (snd (slice_range ry lo hi))).
Proof.
  intros HX Hy lo hi.
  unfold next_instance, getitem_rows, set_instance_index,
    set_current_instance_x, set_current_instance_y.
  cbn [X y instance_index num_target_tasks current_instance_x current_instance_y].
  rewrite HX.
  replace (instance_index g + b - b) with lo by (subst lo; lia). fold hi.
  destruct (slice_range rx lo hi) as [fx kx].
  cbn [X y instance_index num_target_tasks current_instance_x current_instance_y].
  rewrite Hy.
  destruct (slice_range ry lo hi) as [fy ky].
  cbn [X y instance_index num_target_tasks current_instance_x current_instance_y].
  destruct (num_target_tasks g <? 2);
    cbn [X y instance_index num_target_tasks current_instance_x current_instance_y
         fst snd contents option_map shape data flatten size prod_shape fold_right];
    rewrite ?Nat.mul_1_r; split; reflexivity.
Qed.

(** *** The object just built *)

Lemma init_fields (n f i t : Z) (X0 y0 : ndarray val) g0 :
  make_regression n f i t = Some (X0, y0) ->
  __init__ zero make_regression n f i t = Some g0 ->
  X g0 = X0 /\ resize zero y0 (size y0) t = Some (y g0) /\
  num_samples g0 = n /\ num_features g0 = f /\ num_target_tasks g0 = t /\
  num_informative g0 = i /\ instance_index g0 = 0 /\
  current_instance_x g0 = None /\ current_instance_y g0 = None.
Proof.
  unfold __init__, __configure. intros ->.
  destruct (resize zero y0 (size y0) t) as [y1|]; [|discriminate].
  intros H; inversion H; subst; cbn. repeat split.
Qed.

Lemma init_numbers (n f i t : Z) g0 :
  __init__ zero make_regression n f i t = Some g0 ->
  num_samples g0 = n /\ num_features g0 = f /\ num_target_tasks g0 = t /\
  num_informative g0 = i /\ instance_index g0 = 0 /\
  current_instance_x g0 = None /\ current_instance_y g0 = None.
Proof.
  unfold __init__, __configure.
  destruct (make_regression n f i t) as [[X0 y0]|]; [|discriminate].
  destruct (resize zero y0 (size y0) t) as [y1|]; [|discriminate].
  intros H; inversion H; subst; cbn. repeat split.
Qed.

Lemma size_of_targets (n f t : Z) (X0 y0 : ndarray val) :
  make_regression_shapes n f t X0 y0 ->
  size y0 = (Z.to_nat n * Z.to_nat t)%nat.
Proof.
  intros (_ & _ & _ & _ & _ & Hs & _). unfold size. rewrite Hs.
  destruct (t =? 1) eqn:E; unfold prod_shape; cbn [fold_right];
    [apply Z.eqb_eq in E; subst t; change (Z.to_nat 1) with 1%nat|]; lia.
Qed.

(** The arrays the object holds: [X] as generated; [y] with one row of
    [n_targets] entries per entry of the generated [y], the generated
    entries first. *)
Lemma init_arrays (n f i t : Z) (X0 y0 : ndarray val) g0 :
  make_regression n f i t = Some (X0, y0) ->
  make_regression_shapes n f t X0 y0 ->
  __init__ zero make_regression n f i t = Some g0 ->
  X g0 = X0 /\
  shape (y g0) = [(Z.to_nat n * Z.to_nat t)%nat; Z.to_nat t] /\
  (exists pad, data (y g0) = data y0 ++ pad) /\
  length (data y0) = (Z.to_nat n * Z.to_nat t)%nat.
Proof.
  intros Hmk Hs Hinit.
  destruct (init_fields _ _ _ _ _ _ _ Hmk Hinit) as (HX & Hr & _).
  pose proof (size_of_targets _ _ _ _ _ Hs) as Hsize.
  destruct Hs as (_ & _ & _ & _ & _ & _ & Hwf).
  split; [exact HX|]. split; [|split].
  - rewrite (resize_shape _ _ _ _ _ Hr), Hsize. reflexivity.
  - eexists. apply (resize_data _ _ _ _ _ Hr Hwf).
    rewrite Hsize. destruct (Z.to_nat t); nia.
  - unfold well_shaped in Hwf. lia.
Qed.

End GeneratorFacts.

(** ** The stream contract *)

Section StreamContract.

Context {val : Type}.
Variable zero : val.
Variable make_regression : Z -> Z -> Z -> Z -> option (ndarray val * ndarray val).

Implicit Types (g self : RegressionGenerator val) (cs : list call).

Lemma restart_does_nothing g : restart g = (tt, g).
Proof. reflexivity. Qed.

(** The arrays and the cursor of an object reached from a fresh one. *)
Lemma reached_state (n f i t : Z) (X0 y0 : ndarray val) g0 cs :
  make_regression n f i t = Some (X0, y0) ->
  make_regression_shapes n f t X0 y0 ->
  __init__ zero make_regression n f i t = Some g0 ->
  let g := run cs g0 in
  X g = X0 /\
  shape X0 = [Z.to_nat n; Z.to_nat f] /\
  shape (y g) = [(Z.to_nat n * Z.to_nat t)%nat; Z.to_nat t] /\
  (exists pad, data (y g) = data y0 ++ pad) /\
  length (data y0) = (Z.to_nat n * Z.to_nat t)%nat /\
  length (data X0) = (Z.to_nat n * Z.to_nat f)%nat /\
  num_samples g = n /\ num_features g = f /\ num_target_tasks g = t /\
  instance_index g = total_requested cs /\ 0 <= n.
Proof.
  intros Hmk Hs Hinit g.
  destruct (init_arrays zero make_regression _ _ _ _ _ _ _ Hmk Hs Hinit)
    as (HX & Hys & Hyd & Hyl).
  destruct (init_numbers zero make_regression _ _ _ _ _ Hinit)
    as (Hn & Hf & Ht & _ & Hc & _).
  destruct (run_same_problem cs g0) as (EX & Ey & En & Ef & Et & _).
  pose proof (run_cursor cs g0) as Ec.
  destruct Hs as (Hn0 & _ & _ & HsX & HwX & _).
  subst g. rewrite EX, Ey, En, Ef, Et, Ec, Hc.
  repeat split; try assumption; try lia.
  unfold well_shaped, size in HwX. rewrite HsX in HwX.
  unfold prod_shape in HwX; cbn [fold_right] in HwX. lia.
Qed.

(** C2, as amended: when a request of a non-negative batch size moves the
    cursor past the number of samples, the fallback branch is not taken.
    The call returns the feature rows from the previous cursor position (or
    from the end, if the cursor was already past it) up to the last sample,
    nothing being discarded, and for a single target the flattened targets
    of the same rows. *)
Theorem C2_overrun_returns_remaining_rows (n f i t : Z) (X0 y0 : ndarray val) g0 cs (b : Z) :
  make_regression n f i t = Some (X0, y0) ->
  make_regression_shapes n f t X0 y0 ->
  __init__ zero make_regression n f i t = Some g0 ->
  nonnegative_batches cs ->
  0 <= b ->
  n < instance_index (run cs g0) + b ->
  let g := run cs g0 in
  let first := Z.to_nat (Z.min (instance_index g) n) in
  let count := (Z.to_nat n - first)%nat in
  contents (fst (fst (next_instance b g))) =
    Some ([count; Z.to_nat f], row_block (Z.to_nat f) (data X0) first count) /\
  length (row_block (Z.to_nat f) (data X0) first count) = (count * Z.to_nat f)%nat /\
  snd (fst (next_instance b g)) <> None /\
  (t = 1 ->
   contents (snd (fst (next_instance b g))) =
     Some ([count], row_block 1 (data y0) first count)).
Proof.
  intros Hmk Hs Hinit Hcs Hb Hover g first count.
  destruct (reached_state _ _ _ _ _ _ _ cs Hmk Hs Hinit)
    as (HX & HsX & Hsy & [pad Hyd] & Hyl & HXl & Hn & Hf & Ht & Hc & Hn0).
  fold g in HX, Hsy, Hyd, Hn, Hf, Ht, Hc, Hover.
  pose proof (total_requested_nonneg cs Hcs) as Htot.
  assert (HsXg : shape (X g) = [Z.to_nat n; Z.to_nat f]) by (rewrite HX; exact HsX).
  destruct (next_instance_batch b g _ _ _ _ HsXg Hsy) as [Hfx Hfy].
  cbv zeta in Hfx, Hfy.
  rewrite slice_range_nonneg in Hfx, Hfy by lia.
  cbn [fst snd] in Hfx, Hfy. rewrite HX in Hfx.
  replace (Z.to_nat (Z.min (instance_index g + b) (Z.of_nat (Z.to_nat n)))
           - Z.to_nat (Z.min (instance_index g) (Z.of_nat (Z.to_nat n))))%nat
    with count in Hfx by (subst count first; lia).
  replace (Z.to_nat (Z.min (instance_index g) (Z.of_nat (Z.to_nat n))))
    with first in Hfx by (subst first; lia).
  split; [exact Hfx|]. split; [apply length_row_block; subst count; lia|].
  split.
  - intros Hnone. rewrite Hnone in Hfy. discriminate.
  - intros ->. rewrite Hfy, Ht, Hyd. change (1 <? 2) with true. cbv iota.
    change (Z.to_nat 1) with 1%nat. rewrite !Nat.mul_1_r.
    replace (Z.to_nat (Z.min (instance_index g + b) (Z.of_nat (Z.to_nat n)))
             - Z.to_nat (Z.min (instance_index g) (Z.of_nat (Z.to_nat n))))%nat
      with count by (subst count first; lia).
    replace (Z.to_nat (Z.min (instance_index g) (Z.of_nat (Z.to_nat n))))
      with first by (subst first; lia).
    rewrite row_block_app; [reflexivity|].
    change (Z.to_nat 1) with 1%nat in Hyl. subst count. lia.
Qed.

(** C3, as amended: the cursor is the sum of the batch sizes requested so
    far, so it is never negative when no batch size is, but it is not
    bounded by the number of samples.  Whatever the batch size, the feature
    rows a call returns are consecutive rows of the generated problem with
    indices below the number of samples, and for a single target so are the
    targets returned. *)
Theorem C3_cursor_and_rows_returned (n f i t : Z) (X0 y0 : ndarray val) g0 cs (b : Z) :
  make_regression n f i t = Some (X0, y0) ->
  make_regression_shapes n f t X0 y0 ->
  __init__ zero make_regression n f i t = Some g0 ->
  let g := run cs g0 in
  instance_index g = total_requested cs /\
  (nonnegative_batches cs -> 0 <= instance_index g) /\
  exists first count : nat,
    (first + count <= Z.to_nat n)%nat /\
    contents (fst (fst (next_instance b g))) =
      Some ([count; Z.to_nat f], row_block (Z.to_nat f) (data X0) first count) /\
    length (row_block (Z.to_nat f) (data X0) first count) = (count * Z.to_nat f)%nat /\
    (t = 1 ->
     contents (snd (fst (next_instance b g))) =
       Some ([count], row_block 1 (data y0) first count)).
Proof.
  intros Hmk Hs Hinit g.
  destruct (reached_state _ _ _ _ _ _ _ cs Hmk Hs Hinit)
    as (HX & HsX & Hsy & [pad Hyd] & Hyl & HXl & Hn & Hf & Ht & Hc & Hn0).
  fold g in HX, Hsy, Hyd, Hn, Hf, Ht, Hc.
  split; [exact Hc|]. split.
  { intros Hcs. rewrite Hc. apply total_requested_nonneg, Hcs. }
  assert (HsXg : shape (X g) = [Z.to_nat n; Z.to_nat f]) by (rewrite HX; exact HsX).
  destruct (next_instance_batch b g _ _ _ _ HsXg Hsy) as [Hfx Hfy].
  cbv zeta in Hfx, Hfy. rewrite HX in Hfx.
  pose proof (slice_range_within (Z.to_nat n) (instance_index g) (instance_index g + b))
    as Hin.
  exists (fst (slice_range (Z.to_nat n) (instance_index g) (instance_index g + b))),
         (snd (slice_range (Z.to_nat n) (instance_index g) (instance_index g + b))).
  split; [exact Hin|]. split; [exact Hfx|].
  split; [apply length_row_block; nia|].
  intros ->. rewrite Hfy, Ht, Hyd. change (1 <? 2) with true. cbv iota.
  change (Z.to_nat 1) with 1%nat in *. rewrite !Nat.mul_1_r.
  rewrite row_block_app; [reflexivity|]. lia.
Qed.

(** C4: a call of [next_instance(batch_size)] moves the cursor by exactly
    [batch_size], in every state and whatever is returned; and no later
    sequence of calls with non-negative batch sizes, [restart] included,
    brings the cursor back below that position. *)
Theorem C4_cursor_advances_unconditionally (b : Z) g :
  instance_index (snd (next_instance b g)) = instance_index g + b /\
  forall cs, nonnegative_batches cs ->
             instance_index g + b <= instance_index (run cs (snd (next_instance b g))).
Proof.
  split; [apply next_instance_cursor|].
  intros cs Hcs. rewrite run_cursor, next_instance_cursor.
  pose proof (total_requested_nonneg cs Hcs). lia.
Qed.

(** C6: a request that stays within the samples returns, for a single
    target, a one-dimensional array of [batch_size] targets, and for two
    or more targets a two-dimensional array of [batch_size] rows and
    [n_targets] columns. *)
Theorem C6_shape_of_targets (n f i t : Z) (X0 y0 : ndarray val) g0 cs (b : Z) :
  make_regression n f i t = Some (X0, y0) ->
  make_regression_shapes n f t X0 y0 ->
  __init__ zero make_regression n f i t = Some g0 ->
  0 <= instance_index (run cs g0) ->
  0 <= b ->
  instance_index (run cs g0) + b <= n ->
  exists targets,
    snd (fst (next_instance b (run cs g0))) = Some targets /\
    (t = 1 ->
     shape targets = [Z.to_nat b] /\ length (data targets) = Z.to_nat b) /\
    (2 <= t ->
     shape targets = [Z.to_nat b; Z.to_nat t] /\
     length (data targets) = (Z.to_nat b * Z.to_nat t)%nat).
Proof.
  intros Hmk Hs Hinit Hc0 Hb Hin.
  destruct (reached_state _ _ _ _ _ _ _ cs Hmk Hs Hinit)
    as (HX & HsX & Hsy & [pad Hyd] & Hyl & HXl & Hn & Hf & Ht & Hc & Hn0).
  set (g := run cs g0) in *.
  assert (HsXg : shape (X g) = [Z.to_nat n; Z.to_nat f]) by (rewrite HX; exact HsX).
  destruct (next_instance_batch b g _ _ _ _ HsXg Hsy) as [_ Hfy].
  cbv zeta in Hfy.
  destruct (snd (fst (next_instance b g))) as [targets|]; [|discriminate].
  exists targets. split; [reflexivity|].
  cbn [contents option_map] in Hfy.
  assert (Hrange : 1 <= t ->
            slice_range (Z.to_nat n * Z.to_nat t) (instance_index g) (instance_index g + b)
            = (Z.to_nat (instance_index g), Z.to_nat b)).
  { intros H1. rewrite slice_range_inside by nia. f_equal. f_equal. lia. }
  assert (Hlen : 1 <= t ->
            length (row_block (Z.to_nat t) (data (y g))
                      (Z.to_nat (instance_index g)) (Z.to_nat b))
            = (Z.to_nat b * Z.to_nat t)%nat).
  { intros H1. apply length_row_block. rewrite Hyd, length_app. nia. }
  split.
  - intros ->. rewrite Ht, Hrange in Hfy by lia.
    change (1 <? 2) with true in Hfy. cbn [fst snd] in Hfy.
    change (Z.to_nat 1) with 1%nat in *.
    injection Hfy as Hsh Hda. rewrite Hsh, Hda, Hlen by lia.
    rewrite Nat.mul_1_r. split; reflexivity.
  - intros H2. rewrite Ht, Hrange in Hfy by lia.
    replace (t <? 2) with false in Hfy by (symmetry; apply Z.ltb_ge; lia).
    cbn [fst snd] in Hfy.
    injection Hfy as Hsh Hda. rewrite Hsh, Hda, Hlen by lia.
    split; reflexivity.
Qed.

(** Reading one instance at a time from a cursor inside both arrays: the
    [j]-th call returns row [j] of [X] and row [j] of [y]. *)
Lemma read_one_by_one_rows (k : nat) :
  forall g (rx cx ry cy : nat),
    shape (X g) = [rx; cx] -> shape (y g) = [ry; cy] ->
    0 <= instance_index g ->
    instance_index g + Z.of_nat k <= Z.of_nat rx ->
    instance_index g + Z.of_nat k <= Z.of_nat ry ->
    map batch_contents (fst (read_one_by_one k g)) =
      map (fun j =>
             (Some ([1%nat; cx], row_block cx (data (X g)) j 1),
              Some (if num_target_tasks g <? 2 then [cy] else [1%nat; cy],
                    row_block cy (data (y g)) j 1)))
          (seq (Z.to_nat (instance_index g)) k) /\
    instance_index (snd (read_one_by_one k g)) = instance_index g + Z.of_nat k /\
    same_problem g (snd (read_one_by_one k g)).
Proof.
  induction k as [|k IH]; intros g rx cx ry cy HX Hy Hc Hrx Hry.
  - cbn. repeat split. lia.
  - cbn [read_one_by_one].
    pose proof (next_instance_same_problem 1 g) as Hsame.
    pose proof (next_instance_cursor 1 g) as Hcur.
    destruct (next_instance_batch 1 g _ _ _ _ HX Hy) as [Hbx Hby].
    cbv zeta in Hbx, Hby.
    rewrite slice_range_inside in Hbx, Hby by lia.
    replace (instance_index g + 1 - instance_index g) with 1 in Hbx, Hby by lia.
    change (Z.to_nat 1) with 1%nat in Hbx, Hby. cbn [fst snd] in Hbx, Hby.
    rewrite Nat.mul_1_l in Hby.
    destruct (next_instance 1 g) as [batch g1]. cbn [fst snd] in *.
    destruct Hsame as (EX & Ey & En & Ef & Et & Ei).
    destruct (IH g1 rx cx ry cy) as (IHm & IHc & IHs);
      try congruence; try lia.
    destruct (read_one_by_one k g1) as [rest g2]. cbn [fst snd] in *.
    split; [|split].
    + cbn [map seq]. f_equal.
      * unfold batch_contents. rewrite Hbx, Hby. reflexivity.
      * rewrite IHm, EX, Ey, Et, Hcur. f_equal. f_equal. lia.
    + lia.
    + eapply same_problem_trans; [|exact IHs]. repeat split; assumption.
Qed.

(** C5: on a problem of [n_samples] samples, [n_samples] calls of
    [next_instance(1)] return row 0, row 1, ... of the generated features,
    each with the targets of the same row, in the order of generation; these
    rows make up the whole of the generated arrays; and afterwards
    [has_more_instances()] is false. *)
Theorem C5_one_by_one_reads_every_row (n f i t : Z) (X0 y0 : ndarray val) g0 :
  make_regression n f i t = Some (X0, y0) ->
  make_regression_shapes n f t X0 y0 ->
  __init__ zero make_regression n f i t = Some g0 ->
  1 <= t ->
  map batch_contents (fst (read_one_by_one (Z.to_nat n) g0)) =
    map (fun k =>
           (Some ([1%nat; Z.to_nat f], row_block (Z.to_nat f) (data X0) k 1),
            Some (if t =? 1 then [1%nat] else [1%nat; Z.to_nat t],
                  row_block (Z.to_nat t) (data y0) k 1)))
        (seq 0 (Z.to_nat n)) /\
  concat (map (fun k => row_block (Z.to_nat f) (data X0) k 1) (seq 0 (Z.to_nat n)))
    = data X0 /\
  concat (map (fun k => row_block (Z.to_nat t) (data y0) k 1) (seq 0 (Z.to_nat n)))
    = data y0 /\
  fst (has_more_instances (snd (read_one_by_one (Z.to_nat n) g0))) = false.
Proof.
  intros Hmk Hs Hinit Ht1.
  destruct (reached_state _ _ _ _ _ _ _ [] Hmk Hs Hinit)
    as (HX & HsX & Hsy & [pad Hyd] & Hyl & HXl & Hn & Hf & Ht & Hc & Hn0).
  cbn [run fold_left total_requested fold_right] in *.
  assert (HsXg : shape (X g0) = [Z.to_nat n; Z.to_nat f]) by (rewrite HX; exact HsX).
  destruct (read_one_by_one_rows (Z.to_nat n) g0 _ _ _ _ HsXg Hsy)
    as (Hm & Hcur & Hsame); try nia.
  split; [|split; [|split]].
  - rewrite Hm, Hc, HX, Ht, Hyd. change (Z.to_nat 0) with 0%nat.
    apply map_ext_in. intros k Hk. apply in_seq in Hk.
    rewrite row_block_app by nia.
    replace (t <? 2) with (t =? 1) by lia.
    destruct (t =? 1) eqn:E; [apply Z.eqb_eq in E; rewrite E|]; reflexivity.
  - rewrite concat_row_blocks by (rewrite HXl; lia). reflexivity.
  - rewrite concat_row_blocks by (rewrite Hyl; lia). reflexivity.
  - unfold has_more_instances. cbn [fst].
    destruct Hsame as (_ & _ & En & _). rewrite En, Hn, Hcur, Hc.
    rewrite Z.gtb_ltb. apply Z.ltb_ge. lia.
Qed.

(** C7: in every state reached from a fresh object,
    [estimated_remaining_instances()] is the number of samples minus the
    cursor and leaves the object as it is; [has_more_instances()] is true
    exactly when that number is positive, and leaves the object as it is; and
    a call of [next_instance(batch_size)] lowers the number by exactly
    [batch_size]. *)
Theorem C7_remaining_and_has_more (n f i t : Z) g0 cs (b : Z) :
  __init__ zero make_regression n f i t = Some g0 ->
  let g := run cs g0 in
  estimated_remaining_instances g = (n - instance_index g, g) /\
  snd (has_more_instances g) = g /\
  (fst (has_more_instances g) = true <-> 0 < fst (estimated_remaining_instances g)) /\
  fst (estimated_remaining_instances (snd (next_instance b g))) =
    fst (estimated_remaining_instances g) - b.
Proof.
  intros Hinit g.
  destruct (init_numbers zero make_regression _ _ _ _ _ Hinit) as (Hn & _).
  destruct (run_same_problem cs g0) as (_ & _ & En & _). fold g in En.
  destruct (next_instance_same_problem b g) as (_ & _ & En' & _).
  unfold estimated_remaining_instances, has_more_instances. cbn [fst snd].
  rewrite En', next_instance_cursor, En, Hn, Z.gtb_ltb, Z.ltb_lt.
  repeat split; intros; lia.
Qed.

(** C8: [get_last_instance()] returns the stored pair and leaves the whole
    object as it is; the stored pair is the one the latest call of
    [next_instance] returned, also after any calls of the other methods; and
    no call changes the two arrays or the four numbers of the problem, so
    that only the cursor and the stored pair change. *)
Theorem C8_last_instance_and_frame (b : Z) g cs (c : call) :
  get_last_instance g = ((current_instance_x g, current_instance_y g), g) /\
  fst (get_last_instance (snd (next_instance b g))) = fst (next_instance b g) /\
  (forallb reads_nothing cs = true ->
   fst (get_last_instance (run cs (snd (next_instance b g)))) = fst (next_instance b g)) /\
  same_problem g (exec c g) /\
  same_problem g (run cs g).
Proof.
  split; [reflexivity|]. split; [reflexivity|]. split; [|split].
  - intros Hcs. rewrite run_reads_nothing by exact Hcs. reflexivity.
  - apply exec_same_problem.
  - apply run_same_problem.
Qed.

(** C9: after a successful construction with [n_features] features and
    [n_targets] targets, [get_num_attributes()] returns [n_features] and
    [get_num_targets()] returns [n_targets], in the fresh object and after
    any sequence of calls. *)
Theorem C9_attribute_and_target_counts (n f i t : Z) g0 cs :
  __init__ zero make_regression n f i t = Some g0 ->
  fst (get_num_attributes (run cs g0)) = f /\
  fst (get_num_targets (run cs g0)) = t /\
  fst (get_num_targeting_tasks (run cs g0)) = t.
Proof.
  intros Hinit.
  destruct (init_numbers zero make_regression _ _ _ _ _ Hinit) as (_ & Hf & Ht & _).
  destruct (run_same_problem cs g0) as (_ & _ & _ & Ef & Et & _).
  cbn [get_num_attributes get_num_targets get_num_targeting_tasks fst].
  rewrite Ef, Et. repeat split; assumption.
Qed.

(** C10: in a freshly constructed object, before any call of
    [next_instance], [get_last_instance()] returns the pair [(None, None)]. *)
Theorem C10_last_instance_of_fresh_object (n f i t : Z) g0 :
  __init__ zero make_regression n f i t = Some g0 ->
  fst (get_last_instance g0) = (None, None).
Proof.
  intros Hinit.
  destruct (init_numbers zero make_regression _ _ _ _ _ Hinit)
    as (_ & _ & _ & _ & _ & Hx & Hy).
  cbn [get_last_instance fst]. rewrite Hx, Hy. reflexivity.
Qed.

End StreamContract.

(** ** The contract on concrete problems *)

Lemma single_target_drawn :
  sample_regression 10 3 2 1 = Some (single_target_X, single_target_y).
Proof. reflexivity. Qed.

Lemma single_target_shapes :
  make_regression_shapes 10 3 1 single_target_X single_target_y.
Proof. unfold make_regression_shapes, well_shaped. repeat split; try lia. Qed.

Lemma two_targets_drawn :
  sample_regression 3 2 1 2 = Some (two_targets_X, two_targets_y).
Proof. reflexivity. Qed.

Lemma two_targets_shapes :
  make_regression_shapes 3 2 2 two_targets_X two_targets_y.
Proof. unfold make_regression_shapes, well_shaped. repeat split; try lia. Qed.

Lemma nonnegative_batches_4 : nonnegative_batches [NextInstance 4].
Proof. repeat constructor. cbn. lia. Qed.

(** C1, as the code has it: [restart] is an empty method.  On the problem
    with 10 samples, 3 features and 1 target, after [next_instance(4)] a
    call of [restart()] leaves the cursor at 4 and 6 instances remaining
    (not 10), and the next batch of 4 consists of rows 4 to 7 (entries 12
    to 23), not of rows 0 to 3 again. *)
Theorem C1_restart_keeps_the_cursor :
  exists g0 : RegressionGenerator Z,
    single_target = Some g0 /\
    fst (is_restartable g0) = true /\
    contents (fst (fst (next_instance 4 g0))) =
      Some ([4; 3]%nat, [0; 1; 2; 3; 4; 5; 6; 7; 8; 9; 10; 11]) /\
    let g := snd (restart (snd (next_instance 4 g0))) in
    instance_index g = 4 /\
    num_samples g = 10 /\
    fst (estimated_remaining_instances g) = 6 /\
    contents (fst (fst (next_instance 4 g))) =
      Some ([4; 3]%nat, [12; 13; 14; 15; 16; 17; 18; 19; 20; 21; 22; 23]).
Proof.
  eexists. split; [reflexivity|]. vm_compute. repeat split.
Qed.

(** C2, as stated, fails: with 10 samples, after [next_instance(4)] the call
    [next_instance(10)] would move the cursor to 14, and it returns the six
    remaining rows and their six targets, not a pair of empty results. *)
Lemma C2_overrun_counterexample :
  exists g0 : RegressionGenerator Z,
    single_target = Some g0 /\
    let g := run [NextInstance 4] g0 in
    num_samples g < instance_index g + 10 /\
    is_empty_pair (fst (next_instance 10 g)) = false /\
    batch_contents (fst (next_instance 10 g)) =
      (Some ([6; 3]%nat,
             [12; 13; 14; 15; 16; 17; 18; 19; 20; 21; 22; 23; 24; 25; 26; 27; 28; 29]),
       Some ([6]%nat, [1004; 1005; 1006; 1007; 1008; 1009])).
Proof.
  eexists. split; [reflexivity|]. vm_compute. repeat split.
Qed.

Lemma C2_overrun_witness :
  exists g0 : RegressionGenerator Z,
    single_target = Some g0 /\
    contents (fst (fst (next_instance 10 (run [NextInstance 4] g0)))) =
      Some ([6; 3]%nat,
            [12; 13; 14; 15; 16; 17; 18; 19; 20; 21; 22; 23; 24; 25; 26; 27; 28; 29]) /\
    contents (snd (fst (next_instance 10 (run [NextInstance 4] g0)))) =
      Some ([6]%nat, [1004; 1005; 1006; 1007; 1008; 1009]).
Proof.
  eexists. split; [reflexivity|].
  destruct (C2_overrun_returns_remaining_rows 0 sample_regression 10 3 2 1
              single_target_X single_target_y _ [NextInstance 4] 10
              single_target_drawn single_target_shapes eq_refl
              nonnegative_batches_4 ltac:(lia) ltac:(vm_compute; reflexivity))
    as (Hx & _ & _ & Hy).
  split; [exact Hx | exact (Hy eq_refl)].
Defined.

(** C3, as stated, fails: with 10 samples, after [next_instance(4)] and
    [next_instance(10)] the cursor is 14, above the number of samples. *)
Lemma C3_cursor_counterexample :
  exists g0 : RegressionGenerator Z,
    single_target = Some g0 /\
    let g := run [NextInstance 4; NextInstance 10] g0 in
    instance_index g = 14 /\
    num_samples g = 10 /\
    ~ (0 <= instance_index g <= num_samples g).
Proof.
  eexists. split; [reflexivity|]. cbv zeta.
  split; [reflexivity|]. split; [reflexivity|].
  change (~ (0 <= 14 <= 10)). lia.
Qed.

Lemma C3_cursor_witness :
  exists g0 : RegressionGenerator Z,
    single_target = Some g0 /\
    instance_index (run [NextInstance 4] g0) = 4 /\
    0 <= instance_index (run [NextInstance 4] g0) /\
    exists first count : nat,
      (first + count <= 10)%nat /\
      contents (fst (fst (next_instance 10 (run [NextInstance 4] g0)))) =
        Some ([count; 3%nat], row_block 3 (data single_target_X) first count) /\
      contents (snd (fst (next_instance 10 (run [NextInstance 4] g0)))) =
        Some ([count], row_block 1 (data single_target_y) first count).
Proof.
  eexists. split; [reflexivity|].
  destruct (C3_cursor_and_rows_returned 0 sample_regression 10 3 2 1
              single_target_X single_target_y _ [NextInstance 4] 10
              single_target_drawn single_target_shapes eq_refl)
    as (Hc & H0 & first & count & Hin & Hx & _ & Hy).
  split; [exact Hc|]. split; [exact (H0 nonnegative_batches_4)|].
  exists first, count. split; [exact Hin|]. split; [exact Hx | exact (Hy eq_refl)].
Defined.

Lemma C4_cursor_witness :
  exists g0 : RegressionGenerator Z,
    single_target = Some g0 /\
    instance_index (snd (next_instance 10 (run [NextInstance 4] g0))) = 14 /\
    14 <= instance_index
            (run [NextInstance 4] (snd (next_instance 10 (run [NextInstance 4] g0)))).
Proof.
  eexists. split; [reflexivity|].
  destruct (C4_cursor_advances_unconditionally 10
              (run [NextInstance 4]
                 (mk_generator single_target_X
                    (mk_ndarray [10; 1]%nat (count_from 1000 10) true)
                    10 3 1 2 0 None None)))
    as (Hc & Hlater).
  split; [exact Hc | exact (Hlater [NextInstance 4] nonnegative_batches_4)].
Defined.

Lemma C5_one_by_one_witness :
  exists g0 : RegressionGenerator Z,
    single_target = Some g0 /\
    map batch_contents (fst (read_one_by_one 10 g0)) =
      map (fun k => (Some ([1; 3]%nat, row_block 3 (data single_target_X) k 1),
                     Some ([1]%nat, row_block 1 (data single_target_y) k 1)))
          (seq 0 10) /\
    fst (has_more_instances (snd (read_one_by_one 10 g0))) = false.
Proof.
  eexists. split; [reflexivity|].
  destruct (C5_one_by_one_reads_every_row 0 sample_regression 10 3 2 1
              single_target_X single_target_y _
              single_target_drawn single_target_shapes eq_refl ltac:(lia))
    as (Hm & _ & _ & Hmore).
  split; [exact Hm | exact Hmore].
Defined.

Lemma C6_shape_witness :
  exists g0 : RegressionGenerator Z,
    two_targets = Some g0 /\
    exists targets,
      snd (fst (next_instance 2 (run [NextInstance 1] g0))) = Some targets /\
      shape targets = [2; 2]%nat /\ length (data targets) = 4%nat.
Proof.
  eexists. split; [reflexivity|].
  destruct (C6_shape_of_targets 0 sample_regression 3 2 1 2
              two_targets_X two_targets_y _ [NextInstance 1] 2
              two_targets_drawn two_targets_shapes eq_refl
              ltac:(vm_compute; discriminate) ltac:(lia)
              ltac:(vm_compute; discriminate))
    as (targets & Hsome & _ & H2).
  exists targets. split; [exact Hsome|]. exact (H2 ltac:(lia)).
Defined.

Lemma C7_remaining_witness :
  exists g0 : RegressionGenerator Z,
    single_target = Some g0 /\
    fst (estimated_remaining_instances (run [NextInstance 4] g0)) = 6 /\
    fst (has_more_instances (run [NextInstance 4] g0)) = true /\
    fst (estimated_remaining_instances
           (snd (next_instance 10 (run [NextInstance 4] g0)))) = 6 - 10.
Proof.
  eexists. split; [reflexivity|].
  destruct (C7_remaining_and_has_more 0 sample_regression 10 3 2 1 _
              [NextInstance 4] 10 eq_refl)
    as (Hrem & _ & Hiff & Hnext).
  split; [exact (f_equal fst Hrem)|].
  split; [apply (proj2 Hiff); vm_compute; reflexivity | exact Hnext].
Defined.

Lemma C8_last_instance_witness :
  exists g0 : RegressionGenerator Z,
    single_target = Some g0 /\
    fst (get_last_instance
           (run [Restart; HasMoreInstances; GetLastInstance] (snd (next_instance 4 g0))))
    = fst (next_instance 4 g0).
Proof.
  eexists. split; [reflexivity|].
  destruct (C8_last_instance_and_frame 4
              (mk_generator single_target_X
                 (mk_ndarray [10; 1]%nat (count_from 1000 10) true)
                 10 3 1 2 0 None None)
              [Restart; HasMoreInstances; GetLastInstance] Restart)
    as (_ & _ & Hlast & _).
  exact (Hlast eq_refl).
Defined.

Lemma C9_counts_witness :
  exists g0 : RegressionGenerator Z,
    single_target = Some g0 /\
    fst (get_num_attributes (run [NextInstance 4; Restart; NextInstance 10] g0)) = 3 /\
    fst (get_num_targets (run [NextInstance 4; Restart; NextInstance 10] g0)) = 1.
Proof.
  eexists. split; [reflexivity|].
  destruct (C9_attribute_and_target_counts 0 sample_regression 10 3 2 1 _
              [NextInstance 4; Restart; NextInstance 10] eq_refl)
    as (Hf & Ht & _).
  split; [exact Hf | exact Ht].
Defined.

Lemma C10_fresh_object_witness :
  exists g0 : RegressionGenerator Z,
    single_target = Some g0 /\
    fst (get_last_instance g0) = (None, None).
Proof.
  eexists. split; [reflexivity|].
  exact (C10_last_instance_of_fresh_object 0 sample_regression 10 3 2 1 _ eq_refl).
Defined.

(** * Further behaviour of the stream *)

Section StreamBehaviour.

Context {val : Type}.
Variable zero : val.
Variable make_regression : Z -> Z -> Z -> Z -> option (ndarray val * ndarray val).

Implicit Types (g self : RegressionGenerator val) (cs : list call).

Lemma firstn_then_firstn (a b : nat) (l : list val) :
  firstn a l ++ firstn b (skipn a l) = firstn (a + b) l.
Proof.
  rewrite firstn_skipn_comm.
  replace (firstn a l) with (firstn a (firstn (a + b) l))
    by (rewrite firstn_firstn; f_equal; lia).
  apply firstn_skipn.
Qed.

(** Two adjacent blocks of rows make one block. *)
Lemma row_block_append (rowsize : nat) (d : list val) (first k1 k2 : nat) :
  row_block rowsize d first k1 ++ row_block rowsize d (first + k1) k2
  = row_block rowsize d first (k1 + k2).
Proof.
  unfold row_block.
  replace ((first + k1) * rowsize)%nat with (k1 * rowsize + first * rowsize)%nat by lia.
  rewrite <- skipn_skipn, firstn_then_firstn. f_equal. lia.
Qed.

Lemma row_block_join (rowsize : nat) (d : list val) (p q r : nat) :
  (p <= q <= r)%nat ->
  row_block rowsize d p (q - p) ++ row_block rowsize d q (r - q)
  = row_block rowsize d p (r - p).
Proof.
  intros H. replace q with (p + (q - p))%nat at 2 by lia.
  rewrite row_block_append. f_equal. lia.
Qed.

Lemma batch_data_of_contents (a : option (ndarray val)) (s : list nat) (d : list val) :
  contents a = Some (s, d) -> batch_data a = d.
Proof. destruct a; cbn; intros H; inversion H; reflexivity. Qed.

(** What a call returns is determined by the problem and the cursor; the
    batch stored by an earlier call plays no part. *)
Lemma next_instance_depends (b : Z) g g' :
  same_problem g g' -> instance_index g' = instance_index g ->
  fst (next_instance b g') = fst (next_instance b g).
Proof.
  destruct g, g'. unfold same_problem. cbn.
  intros (-> & -> & -> & -> & -> & ->) ->. reflexivity.
Qed.

Lemma run_app cs cs' g : run (cs ++ cs') g = run cs' (run cs g).
Proof. apply fold_left_app. Qed.

(** X1: a request that stays within the samples returns exactly the rows
    from the cursor on, as many as were asked for, and the targets of the
    same rows. *)
Theorem in_range_batch_is_the_requested_rows
    (n f i t : Z) (X0 y0 : ndarray val) g0 cs (b : Z) :
  make_regression n f i t = Some (X0, y0) ->
  make_regression_shapes n f t X0 y0 ->
  __init__ zero make_regression n f i t = Some g0 ->
  1 <= t ->
  0 <= instance_index (run cs g0) ->
  0 <= b ->
  instance_index (run cs g0) + b <= n ->
  batch_contents (fst (next_instance b (run cs g0))) =
    (Some ([Z.to_nat b; Z.to_nat f],
           row_block (Z.to_nat f) (data X0)
             (Z.to_nat (instance_index (run cs g0))) (Z.to_nat b)),
     Some (if t =? 1 then [Z.to_nat b] else [Z.to_nat b; Z.to_nat t],
           row_block (Z.to_nat t) (data y0)
             (Z.to_nat (instance_index (run cs g0))) (Z.to_nat b))).
Proof.
  intros Hmk Hs Hinit Ht1 Hc0 Hb Hin.
  destruct (reached_state zero make_regression _ _ _ _ _ _ _ cs Hmk Hs Hinit)
    as (HX & HsX & Hsy & [pad Hyd] & Hyl & HXl & Hn & Hf & Ht & Hc & Hn0).
  set (g := run cs g0) in *.
  assert (HsXg : shape (X g) = [Z.to_nat n; Z.to_nat f]) by (rewrite HX; exact HsX).
  destruct (next_instance_batch b g _ _ _ _ HsXg Hsy) as [Hfx Hfy].
  cbv zeta in Hfx, Hfy.
  rewrite slice_range_inside in Hfx, Hfy by nia.
  replace (instance_index g + b - instance_index g) with b in Hfx, Hfy by lia.
  cbn [fst snd] in Hfx, Hfy.
  unfold batch_contents. rewrite Hfx, Hfy, HX, Ht, Hyd.
  rewrite row_block_app by nia.
  replace (t <? 2) with (t =? 1) by lia.
  destruct (t =? 1) eqn:E; [|reflexivity].
  apply Z.eqb_eq in E. rewrite E. change (Z.to_nat 1) with 1%nat.
  rewrite Nat.mul_1_r. reflexivity.
Qed.

(** Two requests in a row against one request for both, on any object whose
    arrays are two-dimensional. *)
Lemma consecutive_batches_2d (a b : Z) g (rx cx ry cy : nat) :
  shape (X g) = [rx; cx] -> shape (y g) = [ry; cy] ->
  0 <= instance_index g -> 0 <= a -> 0 <= b ->
  batch_data (fst (fst (next_instance a g)))
    ++ batch_data (fst (fst (next_instance b (snd (next_instance a g)))))
  = batch_data (fst (fst (next_instance (a + b) g))) /\
  batch_data (snd (fst (next_instance a g)))
    ++ batch_data (snd (fst (next_instance b (snd (next_instance a g)))))
  = batch_data (snd (fst (next_instance (a + b) g))).
Proof.
  intros HX Hy Hc Ha Hb.
  pose proof (next_instance_same_problem a g) as (EX & Ey & _ & _ & Et & _).
  pose proof (next_instance_cursor a g) as Ec.
  set (g1 := snd (next_instance a g)) in *.
  assert (HX1 : shape (X g1) = [rx; cx]) by congruence.
  assert (Hy1 : shape (y g1) = [ry; cy]) by congruence.
  destruct (next_instance_batch a g _ _ _ _ HX Hy) as [Hax Hay].
  destruct (next_instance_batch b g1 _ _ _ _ HX1 Hy1) as [Hbx Hby].
  destruct (next_instance_batch (a + b) g _ _ _ _ HX Hy) as [Hcx Hcy].
  cbv zeta in *.
  rewrite slice_range_nonneg in Hax, Hay, Hbx, Hby, Hcx, Hcy by lia.
  cbn [fst snd] in *.
  apply batch_data_of_contents in Hax, Hay, Hbx, Hby, Hcx, Hcy.
  rewrite Hax, Hay, Hbx, Hby, Hcx, Hcy, EX, Ey, Ec.
  clear - Hc Ha Hb.
  replace (instance_index g + a + b) with (instance_index g + (a + b)) by lia.
  split; apply row_block_join; split; apply Z2Nat.inj_le; lia.
Qed.

(** X2: with non-negative batch sizes, a request for [a] instances followed
    by a request for [b] returns, put together, the entries that one request
    for [a + b] returns, features and targets alike, and leaves the cursor in
    the same place; this also holds when the requests run past the last
    sample. *)
Theorem consecutive_batches_join
    (n f i t : Z) (X0 y0 : ndarray val) g0 cs (a b : Z) :
  make_regression n f i t = Some (X0, y0) ->
  make_regression_shapes n f t X0 y0 ->
  __init__ zero make_regression n f i t = Some g0 ->
  nonnegative_batches cs ->
  0 <= a -> 0 <= b ->
  let g := run cs g0 in
  batch_data (fst (fst (next_instance a g)))
    ++ batch_data (fst (fst (next_instance b (snd (next_instance a g)))))
  = batch_data (fst (fst (next_instance (a + b) g))) /\
  batch_data (snd (fst (next_instance a g)))
    ++ batch_data (snd (fst (next_instance b (snd (next_instance a g)))))
  = batch_data (snd (fst (next_instance (a + b) g))) /\
  instance_index (snd (next_instance b (snd (next_instance a g))))
  = instance_index (snd (next_instance (a + b) g)).
Proof.
  intros Hmk Hs Hinit Hcs Ha Hb g.
  destruct (reached_state zero make_regression _ _ _ _ _ _ _ cs Hmk Hs Hinit)
    as (HX & HsX & Hsy & _ & _ & _ & _ & _ & _ & Hc & _).
  fold g in HX, Hsy, Hc.
  assert (HsXg : shape (X g) = [Z.to_nat n; Z.to_nat f]) by (rewrite HX; exact HsX).
  pose proof (total_requested_nonneg cs Hcs) as Htot.
  destruct (consecutive_batches_2d a b g _ _ _ _ HsXg Hsy) as [Hx Hy]; try lia.
  split; [exact Hx|]. split; [exact Hy|].
  rewrite !next_instance_cursor. lia.
Qed.

(** X3: a request for no instance returns a feature array and a target
    array without any row, from every cursor position, and leaves the cursor
    where it was. *)
Theorem empty_request_returns_no_row
    (n f i t : Z) (X0 y0 : ndarray val) g0 cs :
  make_regression n f i t = Some (X0, y0) ->
  make_regression_shapes n f t X0 y0 ->
  __init__ zero make_regression n f i t = Some g0 ->
  batch_contents (fst (next_instance 0 (run cs g0))) =
    (Some ([0%nat; Z.to_nat f], []),
     Some (if t <? 2 then [0%nat] else [0%nat; Z.to_nat t], [])) /\
  instance_index (snd (next_instance 0 (run cs g0))) = instance_index (run cs g0).
Proof.
  intros Hmk Hs Hinit.
  destruct (reached_state zero make_regression _ _ _ _ _ _ _ cs Hmk Hs Hinit)
    as (HX & HsX & Hsy & _ & _ & _ & _ & _ & Ht & _).
  set (g := run cs g0) in *.
  assert (HsXg : shape (X g) = [Z.to_nat n; Z.to_nat f]) by (rewrite HX; exact HsX).
  destruct (next_instance_batch 0 g _ _ _ _ HsXg Hsy) as [Hfx Hfy].
  cbv zeta in Hfx, Hfy. rewrite Z.add_0_r in Hfx, Hfy.
  assert (Hnone : forall len c, snd (slice_range len c c) = 0%nat).
  { intros len c. unfold slice_range. cbn [snd]. lia. }
  rewrite !Hnone in Hfx, Hfy.
  split; [|rewrite next_instance_cursor; lia].
  unfold batch_contents. rewrite Hfx, Hfy, Ht. reflexivity.
Qed.

(** X4: the [except IndexError] branch is never taken.  In every state
    reached from a fresh object, and for every batch size, a call returns two
    arrays, the features with [n_features] columns, and it is this pair that
    [get_last_instance()] then returns: after the first call it never
    returns [(None, None)] again. *)
Theorem fallback_branch_is_never_taken
    (n f i t : Z) (X0 y0 : ndarray val) g0 cs (b : Z) :
  make_regression n f i t = Some (X0, y0) ->
  make_regression_shapes n f t X0 y0 ->
  __init__ zero make_regression n f i t = Some g0 ->
  exists features targets : ndarray val,
    fst (next_instance b (run cs g0)) = (Some features, Some targets) /\
    tl (shape features) = [Z.to_nat f] /\
    fst (get_last_instance (snd (next_instance b (run cs g0))))
      = (Some features, Some targets).
Proof.
  intros Hmk Hs Hinit.
  destruct (reached_state zero make_regression _ _ _ _ _ _ _ cs Hmk Hs Hinit)
    as (HX & HsX & Hsy & _).
  set (g := run cs g0) in *.
  assert (HsXg : shape (X g) = [Z.to_nat n; Z.to_nat f]) by (rewrite HX; exact HsX).
  destruct (next_instance_batch b g _ _ _ _ HsXg Hsy) as [Hfx Hfy].
  cbv zeta in Hfx, Hfy.
  change (fst (get_last_instance (snd (next_instance b g))))
    with (fst (next_instance b g)).
  destruct (fst (next_instance b g)) as [[features|] [targets|]];
    cbn [fst snd contents option_map] in Hfx, Hfy; try discriminate.
  exists features, targets. split; [reflexivity|]. split; [|reflexivity].
  injection Hfx as Hsh _. rewrite Hsh. reflexivity.
Qed.

(** X5: exhaustion is permanent.  Once [has_more_instances()] is false it
    stays false under further calls with non-negative batch sizes, and every
    such call returns a feature array without rows (and, for a single target,
    no target). *)
Theorem exhausted_stream_stays_exhausted
    (n f i t : Z) (X0 y0 : ndarray val) g0 cs cs' (b : Z) :
  make_regression n f i t = Some (X0, y0) ->
  make_regression_shapes n f t X0 y0 ->
  __init__ zero make_regression n f i t = Some g0 ->
  fst (has_more_instances (run cs g0)) = false ->
  nonnegative_batches cs' ->
  0 <= b ->
  let g := run cs' (run cs g0) in
  fst (has_more_instances g) = false /\
  contents (fst (fst (next_instance b g))) = Some ([0%nat; Z.to_nat f], []) /\
  (t = 1 -> contents (snd (fst (next_instance b g))) = Some ([0%nat], [])).
Proof.
  intros Hmk Hs Hinit Hdone Hcs' Hb g.
  destruct (reached_state zero make_regression _ _ _ _ _ _ _ cs Hmk Hs Hinit)
    as (_ & _ & _ & _ & _ & _ & Hn1 & _ & _ & _ & Hn0).
  unfold has_more_instances in Hdone. cbn [fst] in Hdone.
  rewrite Hn1, Z.gtb_ltb in Hdone. apply Z.ltb_ge in Hdone.
  pose proof (run_cursor cs' (run cs g0)) as Hcur.
  pose proof (total_requested_nonneg cs' Hcs') as Htot.
  unfold g in *. rewrite <- run_app in *.
  destruct (reached_state zero make_regression _ _ _ _ _ _ _ (cs ++ cs') Hmk Hs Hinit)
    as (HX & HsX & Hsy & _ & _ & _ & Hn & _ & Ht & _).
  set (g' := run (cs ++ cs') g0) in *.
  assert (Hpast : n <= instance_index g') by lia.
  assert (HsXg : shape (X g') = [Z.to_nat n; Z.to_nat f]) by (rewrite HX; exact HsX).
  destruct (next_instance_batch b g' _ _ _ _ HsXg Hsy) as [Hfx Hfy].
  cbv zeta in Hfx, Hfy.
  rewrite slice_range_nonneg in Hfx, Hfy by lia. cbn [fst snd] in Hfx, Hfy.
  split; [|split].
  - unfold has_more_instances. cbn [fst]. rewrite Hn, Z.gtb_ltb. apply Z.ltb_ge. lia.
  - rewrite Hfx.
    replace (Z.to_nat (Z.min (instance_index g' + b) (Z.of_nat (Z.to_nat n)))
             - Z.to_nat (Z.min (instance_index g') (Z.of_nat (Z.to_nat n))))%nat
      with 0%nat by lia.
    reflexivity.
  - intros ->. rewrite Hfy, Ht. change (1 <? 2) with true. cbv iota.
    change (Z.to_nat 1) with 1%nat. rewrite !Nat.mul_1_r.
    replace (Z.to_nat (Z.min (instance_index g' + b) (Z.of_nat (Z.to_nat n)))
             - Z.to_nat (Z.min (instance_index g') (Z.of_nat (Z.to_nat n))))%nat
      with 0%nat by lia.
    reflexivity.
Qed.

(** X6: the batch size is not checked, and a negative one moves the cursor
    back.  From any reached state, [next_instance(-instance_index)] puts the
    cursor at 0, all instances remain again, and the following call returns
    what it returns on a fresh object: the stream is replayed from its first
    row. *)
Theorem negative_batch_rewinds (n f i t : Z) g0 cs (b : Z) :
  __init__ zero make_regression n f i t = Some g0 ->
  let g := run cs g0 in
  let g' := snd (next_instance (- instance_index g) g) in
  instance_index g' = 0 /\
  fst (estimated_remaining_instances g') = n /\
  fst (next_instance b g') = fst (next_instance b g0).
Proof.
  intros Hinit g g'.
  destruct (init_numbers zero make_regression _ _ _ _ _ Hinit)
    as (Hn & _ & _ & _ & Hc & _).
  assert (Hsame : same_problem g0 g').
  { eapply same_problem_trans; [apply run_same_problem|].
    apply next_instance_same_problem. }
  assert (Hcur : instance_index g' = 0)
    by (unfold g'; rewrite next_instance_cursor; lia).
  split; [exact Hcur|]. split.
  - unfold estimated_remaining_instances. cbn [fst].
    destruct Hsame as (_ & _ & En & _). rewrite En, Hn, Hcur. lia.
  - apply next_instance_depends; [exact Hsame | congruence].
Qed.

(** X7: on a fresh object a negative batch size [-k], with [0 < k <=
    n_samples], is read as a slice that ends [k] rows before the end: the
    call returns all the rows but the last [k], moves the cursor to [-k], and
    more instances than the problem has are then reported as remaining. *)
Theorem negative_batch_on_fresh_object
    (n f i t : Z) (X0 y0 : ndarray val) g0 (k : Z) :
  make_regression n f i t = Some (X0, y0) ->
  make_regression_shapes n f t X0 y0 ->
  __init__ zero make_regression n f i t = Some g0 ->
  0 < k <= n ->
  contents (fst (fst (next_instance (- k) g0))) =
    Some ([Z.to_nat (n - k); Z.to_nat f],
          row_block (Z.to_nat f) (data X0) 0 (Z.to_nat (n - k))) /\
  (t = 1 ->
   contents (snd (fst (next_instance (- k) g0))) =
     Some ([Z.to_nat (n - k)], row_block 1 (data y0) 0 (Z.to_nat (n - k)))) /\
  instance_index (snd (next_instance (- k) g0)) = - k /\
  fst (estimated_remaining_instances (snd (next_instance (- k) g0))) = n + k.
Proof.
  intros Hmk Hs Hinit Hk.
  destruct (reached_state zero make_regression _ _ _ _ _ _ _ [] Hmk Hs Hinit)
    as (HX & HsX & Hsy & [pad Hyd] & Hyl & HXl & Hn & Hf & Ht & Hc & Hn0).
  cbn [run fold_left total_requested fold_right] in *.
  assert (HsXg : shape (X g0) = [Z.to_nat n; Z.to_nat f]) by (rewrite HX; exact HsX).
  destruct (next_instance_batch (- k) g0 _ _ _ _ HsXg Hsy) as [Hfx Hfy].
  cbv zeta in Hfx, Hfy. rewrite Hc in Hfx, Hfy.
  assert (Hrange : forall len : nat, k <= Z.of_nat len ->
            slice_range len 0 (0 + - k) = (0%nat, Z.to_nat (Z.of_nat len - k))).
  { intros len Hlen. unfold slice_range, slice_bound.
    replace (0 <? 0) with false by reflexivity.
    replace (0 + - k <? 0) with true by (symmetry; apply Z.ltb_lt; lia).
    f_equal; lia. }
  split; [|split; [|split]].
  - rewrite Hfx, Hrange, HX by lia. cbn [fst snd].
    replace (Z.of_nat (Z.to_nat n) - k) with (n - k) by lia. reflexivity.
  - intros ->. rewrite Hfy, Ht, Hyd. change (Z.to_nat 1) with 1%nat in *.
    rewrite Nat.mul_1_r in *. rewrite Hrange by lia. cbn [fst snd].
    change (1 <? 2) with true. cbv iota. rewrite Nat.mul_1_r.
    replace (Z.of_nat (Z.to_nat n) - k) with (n - k) by lia.
    rewrite row_block_app by lia. reflexivity.
  - rewrite next_instance_cursor. lia.
  - unfold estimated_remaining_instances. cbn [fst].
    destruct (next_instance_same_problem (- k) g0) as (_ & _ & En & _).
    rewrite En, Hn, next_instance_cursor. lia.
Qed.

Lemma skipn_repeat (x : val) (m k : nat) :
  skipn m (repeat x k) = repeat x (k - m).
Proof.
  revert k. induction m as [|m IH]; intros k.
  - rewrite Nat.sub_0_r. reflexivity.
  - destruct k as [|k]; [reflexivity|]. cbn [repeat skipn]. apply IH.
Qed.

Lemma firstn_repeat (x : val) (m k : nat) :
  (m <= k)%nat -> firstn m (repeat x k) = repeat x m.
Proof.
  revert k. induction m as [|m IH]; intros k H; [reflexivity|].
  destruct k as [|k]; [lia|]. cbn [repeat firstn]. f_equal. apply IH. lia.
Qed.

(** Rows taken wholly from the padding that follows a buffer. *)
Lemma row_block_of_padding (rowsize : nat) (d : list val) (x : val) (k first count : nat) :
  (length d <= first * rowsize)%nat ->
  ((first + count) * rowsize <= length d + k)%nat ->
  row_block rowsize (d ++ repeat x k) first count = repeat x (count * rowsize).
Proof.
  intros Hlo Hhi. unfold row_block.
  rewrite skipn_app, skipn_all2 by exact Hlo. cbn [app].
  rewrite skipn_repeat. apply firstn_repeat. lia.
Qed.

(** The stored [y] of a fresh object, entry by entry. *)
Lemma init_targets_padded (n f i t : Z) (X0 y0 : ndarray val) g0 :
  make_regression n f i t = Some (X0, y0) ->
  make_regression_shapes n f t X0 y0 ->
  __init__ zero make_regression n f i t = Some g0 ->
  data (y g0) =
    data y0 ++ repeat zero (Z.to_nat n * Z.to_nat t * Z.to_nat t - Z.to_nat n * Z.to_nat t).
Proof.
  intros Hmk Hs Hinit.
  destruct (init_fields zero make_regression _ _ _ _ _ _ _ Hmk Hinit) as (_ & Hr & _).
  pose proof (size_of_targets _ _ _ _ _ Hs) as Hsize.
  destruct Hs as (_ & _ & _ & _ & _ & _ & Hwf).
  rewrite (resize_data _ _ _ _ _ Hr Hwf); rewrite Hsize; [reflexivity|].
  destruct (Z.to_nat t); nia.
Qed.

(** X8: with a single target the construction succeeds whenever
    [make_regression] does, whether or not the [y] it returns owns its
    buffer: the stored [y] has one column and [n_samples] rows and holds the
    generated targets unchanged, [X] is stored as generated, and the cursor
    starts at 0. *)
Theorem single_target_construction_succeeds (n f i : Z) (X0 y0 : ndarray val) :
  make_regression n f i 1 = Some (X0, y0) ->
  make_regression_shapes n f 1 X0 y0 ->
  exists g0,
    __init__ zero make_regression n f i 1 = Some g0 /\
    X g0 = X0 /\
    shape (y g0) = [Z.to_nat n; 1%nat] /\
    data (y g0) = data y0 /\
    instance_index g0 = 0.
Proof.
  intros Hmk Hs.
  pose proof (size_of_targets _ _ _ _ _ Hs) as Hsize.
  change (Z.to_nat 1) with 1%nat in Hsize. rewrite Nat.mul_1_r in Hsize.
  unfold __init__, __configure. rewrite Hmk. unfold resize.
  change (1 <? 0) with false. cbv iota zeta.
  unfold prod_shape at 1. cbn [fold_right]. change (Z.to_nat 1) with 1%nat.
  rewrite Hsize, !Nat.mul_1_r, Nat.eqb_refl.
  eexists. split; [reflexivity|]. cbn. repeat split.
Qed.

(** X9: with two or more targets and at least one sample, the stored [y] is
    resized to [y.size = n_samples * n_targets] rows.  When the generated [y]
    does not own its buffer the constructor raises; when it does, the stored
    [y] has [n_samples * n_targets] rows of [n_targets] entries: the
    generated targets first, and zeros in all the rows from [n_samples] on. *)
Theorem several_targets_construction_pads_with_zeros
    (n f i t : Z) (X0 y0 : ndarray val) :
  make_regression n f i t = Some (X0, y0) ->
  make_regression_shapes n f t X0 y0 ->
  2 <= t -> 1 <= n ->
  (owndata y0 = false -> __init__ zero make_regression n f i t = None) /\
  (owndata y0 = true ->
   exists g0,
     __init__ zero make_regression n f i t = Some g0 /\
     shape (y g0) = [(Z.to_nat n * Z.to_nat t)%nat; Z.to_nat t] /\
     data (y g0) =
       data y0 ++ repeat zero (Z.to_nat n * Z.to_nat t * (Z.to_nat t - 1)) /\
     length (data y0) = (Z.to_nat n * Z.to_nat t)%nat).
Proof.
  intros Hmk Hs Ht Hn.
  pose proof (size_of_targets _ _ _ _ _ Hs) as Hsize.
  assert (Hneq : Nat.eqb (prod_shape [size y0; Z.to_nat t]) (size y0) = false).
  { apply Nat.eqb_neq. unfold prod_shape. cbn [fold_right]. rewrite Hsize. nia. }
  split.
  - intros Hown. unfold __init__, __configure. rewrite Hmk. unfold resize.
    replace (t <? 0) with false by (symmetry; apply Z.ltb_ge; lia).
    cbv zeta. rewrite Hneq, Hown. reflexivity.
  - intros Hown.
    assert (Hinit : exists g0, __init__ zero make_regression n f i t = Some g0).
    { unfold __init__, __configure. rewrite Hmk. unfold resize.
      replace (t <? 0) with false by (symmetry; apply Z.ltb_ge; lia).
      cbv zeta. rewrite Hneq, Hown. eexists. reflexivity. }
    destruct Hinit as [g0 Hinit]. exists g0. split; [exact Hinit|].
    destruct (init_arrays zero make_regression _ _ _ _ _ _ _ Hmk Hs Hinit)
      as (_ & Hsh & _ & Hlen).
    split; [exact Hsh|]. split; [|exact Hlen].
    rewrite (init_targets_padded _ _ _ _ _ _ _ Hmk Hs Hinit). f_equal. f_equal. nia.
Qed.

(** X10: with two or more targets, a request beyond the last sample returns
    features and targets that no longer match: no feature row at all, but one
    target row of zeros for every instance asked for, as long as the request
    stays within the [n_samples * n_targets] rows of the stored [y]. *)
Theorem several_targets_overrun_returns_zero_targets
    (n f i t : Z) (X0 y0 : ndarray val) g0 cs (b : Z) :
  make_regression n f i t = Some (X0, y0) ->
  make_regression_shapes n f t X0 y0 ->
  __init__ zero make_regression n f i t = Some g0 ->
  2 <= t ->
  n <= instance_index (run cs g0) ->
  0 <= b ->
  instance_index (run cs g0) + b <= n * t ->
  batch_contents (fst (next_instance b (run cs g0))) =
    (Some ([0%nat; Z.to_nat f], []),
     Some ([Z.to_nat b; Z.to_nat t], repeat zero (Z.to_nat b * Z.to_nat t))).
Proof.
  intros Hmk Hs Hinit Ht Hpast Hb Hin.
  destruct (reached_state zero make_regression _ _ _ _ _ _ _ cs Hmk Hs Hinit)
    as (HX & HsX & Hsy & _ & Hyl & HXl & Hn & Hf & Htt & Hc & Hn0).
  pose proof (init_targets_padded _ _ _ _ _ _ _ Hmk Hs Hinit) as Hyd.
  destruct (run_same_problem cs g0) as (_ & Ey & _).
  set (g := run cs g0) in *.
  assert (HsXg : shape (X g) = [Z.to_nat n; Z.to_nat f]) by (rewrite HX; exact HsX).
  destruct (next_instance_batch b g _ _ _ _ HsXg Hsy) as [Hfx Hfy].
  cbv zeta in Hfx, Hfy.
  rewrite slice_range_nonneg in Hfx by lia.
  rewrite slice_range_inside in Hfy by nia.
  replace (instance_index g + b - instance_index g) with b in Hfy by lia.
  cbn [fst snd] in Hfx, Hfy.
  unfold batch_contents. rewrite Hfx, Hfy, Htt, Ey, Hyd.
  replace (t <? 2) with false by (symmetry; apply Z.ltb_ge; lia).
  replace (Z.to_nat (Z.min (instance_index g + b) (Z.of_nat (Z.to_nat n)))
           - Z.to_nat (Z.min (instance_index g) (Z.of_nat (Z.to_nat n))))%nat
    with 0%nat by lia.
  rewrite row_block_of_padding by nia. reflexivity.
Qed.

End StreamBehaviour.

(** * The descriptive methods *)

Section Unique.

Context {val : Type}.
Variable val_leb : val -> val -> bool.
Variable val_eqb : val -> val -> bool.

Lemma in_insert_sorted (x v : val) (l : list val) :
  In v (insert_sorted val_leb x l) <-> v = x \/ In v l.
Proof.
  clear val_eqb. induction l as [|h t IH]; cbn [insert_sorted].
  - cbn. intuition congruence.
  - destruct (val_leb x h); cbn [In]; [intuition congruence|].
    rewrite IH. intuition congruence.
Qed.

Lemma in_sort_entries (v : val) (l : list val) :
  In v (sort_entries val_leb l) <-> In v l.
Proof.
  clear val_eqb. induction l as [|h t IH]; [reflexivity|].
  cbn [sort_entries fold_right]. fold (sort_entries val_leb t).
  rewrite in_insert_sorted, IH. cbn [In]. intuition congruence.
Qed.

Lemma in_drop_repeats_after (prev v : val) (l : list val) :
  (forall a b, val_eqb a b = true <-> a = b) ->
  v = prev \/ In v (drop_repeats_after val_eqb prev l) <-> v = prev \/ In v l.
Proof.
  clear val_leb. intros Heq. revert prev. induction l as [|a t IH]; intros prev; [reflexivity|].
  cbn [drop_repeats_after]. destruct (val_eqb prev a) eqn:E.
  - apply Heq in E. subst a. rewrite IH. cbn [In]. intuition congruence.
  - cbn [In]. specialize (IH a). intuition congruence.
Qed.

Lemma in_drop_repeats (v : val) (l : list val) :
  (forall a b, val_eqb a b = true <-> a = b) ->
  In v (drop_repeats val_eqb l) <-> In v l.
Proof.
  clear val_leb. intros Heq. destruct l as [|a t]; [reflexivity|].
  cbn [drop_repeats In].
  pose proof (in_drop_repeats_after a v t Heq). intuition congruence.
Qed.

Lemma insert_sorted_sorted (x : val) (l : list val) :
  total_order val_leb val_eqb ->
  StronglySorted (fun a b => val_leb a b = true) l ->
  StronglySorted (fun a b => val_leb a b = true) (insert_sorted val_leb x l).
Proof.
  intros (_ & Htot & Htrans & _). induction 1 as [|h t Hs IH Hall]; cbn [insert_sorted].
  - constructor; constructor.
  - destruct (val_leb x h) eqn:E.
    + constructor; [constructor; assumption|].
      constructor; [exact E|].
      eapply Forall_impl; [|exact Hall]. intros b Hb. cbv beta in *. eauto.
    + constructor; [exact IH|].
      apply Forall_forall. intros b Hb. apply in_insert_sorted in Hb as [->|Hb].
      * destruct (Htot x h) as [H|H]; [congruence | exact H].
      * rewrite Forall_forall in Hall. apply Hall, Hb.
Qed.

Lemma sort_entries_sorted (l : list val) :
  total_order val_leb val_eqb ->
  StronglySorted (fun a b => val_leb a b = true) (sort_entries val_leb l).
Proof.
  intros Hord. induction l as [|h t IH]; [constructor|].
  cbn [sort_entries fold_right]. apply insert_sorted_sorted; assumption.
Qed.

Lemma drop_repeats_after_increasing (prev : val) (l : list val) :
  total_order val_leb val_eqb ->
  StronglySorted (fun a b => val_leb a b = true) l ->
  Forall (fun b => val_leb prev b = true) l ->
  StronglySorted (strictly_below val_leb) (drop_repeats_after val_eqb prev l) /\
  Forall (strictly_below val_leb prev) (drop_repeats_after val_eqb prev l).
Proof.
  intros (Heq & _ & Htrans & Hanti) Hs. revert prev.
  induction Hs as [|a t Hs IH Hall]; intros prev Hprev; cbn [drop_repeats_after].
  - split; constructor.
  - inversion Hprev as [|? ? Hpa Hpt]; subst.
    destruct (IH a Hall) as [IHs IHa].
    destruct (val_eqb prev a) eqn:E.
    + apply Heq in E. subst a. split; assumption.
    + assert (Hne : prev <> a) by (intros ->; rewrite (proj2 (Heq a a) eq_refl) in E; discriminate).
      split; [constructor; assumption|].
      constructor; [split; assumption|].
      eapply Forall_impl; [|exact IHa]. cbv beta. intros b [Hab Hneb]. split.
      * eapply Htrans; eassumption.
      * intros ->. apply Hne. apply Hanti; assumption.
Qed.

Lemma drop_repeats_increasing (l : list val) :
  total_order val_leb val_eqb ->
  StronglySorted (fun a b => val_leb a b = true) l ->
  StronglySorted (strictly_below val_leb) (drop_repeats val_eqb l).
Proof.
  intros Hord Hs. destruct Hs as [|a t Hs Hall]; cbn [drop_repeats]; [constructor|].
  destruct (drop_repeats_after_increasing a t Hord Hs Hall) as [H1 H2].
  constructor; assumption.
Qed.

Lemma increasing_NoDup (l : list val) :
  StronglySorted (strictly_below val_leb) l -> NoDup l.
Proof.
  induction 1 as [|a t Hs IH Hall]; constructor; [|exact IH].
  intros Hin. rewrite Forall_forall in Hall. destruct (Hall a Hin) as [_ Hne].
  apply Hne. reflexivity.
Qed.

(** X11: when the entries are totally ordered, [get_classes()] returns a
    one-dimensional array holding exactly the values that occur in the
    stored [y], in strictly ascending order and so each value once; the
    object is left as it is. *)
Theorem get_classes_lists_each_value_once (g : RegressionGenerator val) :
  total_order val_leb val_eqb ->
  let classes := fst (get_classes val_leb val_eqb g) in
  (forall v, In v (data classes) <-> In v (data (y g))) /\
  StronglySorted (strictly_below val_leb) (data classes) /\
  NoDup (data classes) /\
  shape classes = [length (data classes)] /\
  snd (get_classes val_leb val_eqb g) = g.
Proof.
  intros Hord classes. pose proof Hord as (Heq & _).
  assert (Hinc : StronglySorted (strictly_below val_leb) (data classes)).
  { apply drop_repeats_increasing; [exact Hord|]. apply sort_entries_sorted, Hord. }
  split; [|split; [exact Hinc|split; [apply increasing_NoDup, Hinc|split; reflexivity]]].
  intros v. unfold classes. cbn [get_classes fst np_unique data].
  rewrite in_drop_repeats by exact Heq. apply in_sort_entries.
Qed.

End Unique.

Section Classes.

Context {val : Type}.
Variable zero : val.
Variable make_regression : Z -> Z -> Z -> Z -> option (ndarray val * ndarray val).
Variable val_leb : val -> val -> bool.
Variable val_eqb : val -> val -> bool.

(** X12: the values [get_classes()] reports, in terms of the generated
    targets.  With a single target they are exactly the generated target
    values.  With two or more targets and at least one sample they are the
    generated values and, in addition, zero, which comes from the rows the
    constructor appends. *)
Theorem get_classes_of_generated_targets
    (n f i t : Z) (X0 y0 : ndarray val) g0 cs (v : val) :
  (forall a b, val_eqb a b = true <-> a = b) ->
  make_regression n f i t = Some (X0, y0) ->
  make_regression_shapes n f t X0 y0 ->
  __init__ zero make_regression n f i t = Some g0 ->
  let classes := fst (get_classes val_leb val_eqb (run cs g0)) in
  (t = 1 -> (In v (data classes) <-> In v (data y0))) /\
  (2 <= t -> 1 <= n -> (In v (data classes) <-> In v (data y0) \/ v = zero)).
Proof.
  intros Heq Hmk Hs Hinit classes.
  pose proof (init_targets_padded zero make_regression _ _ _ _ _ _ _ Hmk Hs Hinit) as Hyd.
  destruct (run_same_problem cs g0) as (_ & Ey & _).
  assert (Hin : In v (data classes) <-> In v (data (y g0))).
  { unfold classes. cbn [get_classes fst np_unique data].
    rewrite in_drop_repeats by exact Heq. rewrite in_sort_entries, Ey. reflexivity. }
  rewrite Hin, Hyd, in_app_iff. split.
  - intros ->. change (Z.to_nat 1) with 1%nat. rewrite !Nat.mul_1_r, Nat.sub_diag.
    cbn [repeat In]. intuition.
  - intros Ht Hn. split; (intros [H|H]; [left; exact H|right]).
    + apply repeat_spec in H. exact H.
    + subst v.
      destruct (Z.to_nat n * Z.to_nat t * Z.to_nat t - Z.to_nat n * Z.to_nat t)%nat
        eqn:E; [nia|]. left. reflexivity.
Qed.

End Classes.

Section Describing.

Context {val : Type}.
Variable zero : val.
Variable make_regression : Z -> Z -> Z -> Z -> option (ndarray val * ndarray val).

Lemma string_of_uint_chars (d : Decimal.uint) :
  string_forall is_digit_or_minus (NilEmpty.string_of_uint d) = true.
Proof. induction d; cbn; [reflexivity | assumption ..]. Qed.

(** [str] writes digits and at most a minus sign. *)
Lemma str_chars (z : Z) : string_forall is_digit_or_minus (str z) = true.
Proof.
  unfold str, NilZero.string_of_int, NilZero.string_of_uint.
  destruct (Z.to_int z) as [d|d]; destruct d; try reflexivity;
    cbn [string_forall is_digit_or_minus andb];
    try apply (string_of_uint_chars (Decimal.D0 d));
    try apply (string_of_uint_chars (Decimal.D1 d));
    try apply (string_of_uint_chars (Decimal.D2 d));
    try apply (string_of_uint_chars (Decimal.D3 d));
    try apply (string_of_uint_chars (Decimal.D4 d));
    try apply (string_of_uint_chars (Decimal.D5 d));
    try apply (string_of_uint_chars (Decimal.D6 d));
    try apply (string_of_uint_chars (Decimal.D7 d));
    try apply (string_of_uint_chars (Decimal.D8 d));
    try apply (string_of_uint_chars (Decimal.D9 d)).
Qed.

Lemma to_int_not_nil (z : Z) :
  Z.to_int z <> Decimal.Pos Decimal.Nil /\ Z.to_int z <> Decimal.Neg Decimal.Nil.
Proof.
  destruct z as [|p|p]; cbn; split; try discriminate;
    intros H; injection H as H; exact (DecimalPos.Unsigned.to_uint_nonnil p H).
Qed.

(** Different integers are written differently. *)
Lemma str_inj (z z' : Z) : str z = str z' -> z = z'.
Proof.
  intros H. unfold str in H.
  destruct (to_int_not_nil z) as [Hp Hn], (to_int_not_nil z') as [Hp' Hn'].
  pose proof (NilZero.isi _ Hp Hn) as E. rewrite H, (NilZero.isi _ Hp' Hn') in E.
  injection E as E. symmetry. apply DecimalZ.to_int_inj, E.
Qed.

(** A number followed by a space ends where the space is. *)
Lemma number_then_space (a a' r r' : string) :
  string_forall is_digit_or_minus a = true ->
  string_forall is_digit_or_minus a' = true ->
  (a ++ String " " r)%string = (a' ++ String " " r')%string ->
  a = a' /\ r = r'.
Proof.
  revert a'. induction a as [|c a IH]; intros [|c' a'] Ha Ha' H;
    cbn [String.append string_forall] in *.
  - injection H as H. split; [reflexivity | exact H].
  - injection H as Hc _. subst c'. discriminate.
  - injection H as Hc _. subst c. discriminate.
  - injection H as Hc H. subst c'.
    apply andb_true_iff in Ha as [_ Ha], Ha' as [_ Ha'].
    destruct (IH a' Ha Ha' H) as [-> ->]. split; reflexivity.
Qed.

Lemma info_of_numbers (g : RegressionGenerator val) :
  fst (get_info g) =
    ("RegressionGenerator: n_samples: "
     ++ (str (num_samples g)
         ++ String " " ("- n_features: "
     ++ (str (num_features g)
         ++ String " " ("- n_informative: "
     ++ (str (num_informative g)
         ++ String " " ("- n_targets: "
     ++ str (num_target_tasks g))))))))%string.
Proof. reflexivity. Qed.

Lemma info_determines_numbers (g g' : RegressionGenerator val) :
  fst (get_info g) = fst (get_info g') ->
  num_samples g = num_samples g' /\ num_features g = num_features g' /\
  num_informative g = num_informative g' /\ num_target_tasks g = num_target_tasks g'.
Proof.
  rewrite !info_of_numbers. intros H.
  cbn [String.append] in H.
  repeat match type of H with String _ _ = String _ _ => injection H as H end.
  apply number_then_space in H as [Hn H]; try apply str_chars.
  cbn [String.append] in H.
  repeat match type of H with String _ _ = String _ _ => injection H as H end.
  apply number_then_space in H as [Hf H]; try apply str_chars.
  cbn [String.append] in H.
  repeat match type of H with String _ _ = String _ _ => injection H as H end.
  apply number_then_space in H as [Hi H]; try apply str_chars.
  cbn [String.append] in H.
  repeat match type of H with String _ _ = String _ _ => injection H as H end.
  repeat split; apply str_inj; assumption.
Qed.

(** X13: [get_info()] names the four parameters of the construction, in
    every reached state, and does so without ambiguity: two generators whose
    descriptions coincide were built with the same numbers of samples,
    features, informative features and targets. *)
Theorem get_info_determines_the_parameters
    (n f i t n' f' i' t' : Z) (g0 g0' : RegressionGenerator val) (cs cs' : list call) :
  __init__ zero make_regression n f i t = Some g0 ->
  __init__ zero make_regression n' f' i' t' = Some g0' ->
  fst (get_info (run cs g0)) =
    ("RegressionGenerator: n_samples: " ++ str n ++ " - n_features: " ++ str f
     ++ " - n_informative: " ++ str i ++ " - n_targets: " ++ str t)%string /\
  (fst (get_info (run cs g0)) = fst (get_info (run cs' g0')) ->
   n = n' /\ f = f' /\ i = i' /\ t = t').
Proof.
  intros Hinit Hinit'.
  destruct (init_numbers zero make_regression _ _ _ _ _ Hinit) as (Hn & Hf & Ht & Hi & _).
  destruct (init_numbers zero make_regression _ _ _ _ _ Hinit') as (Hn' & Hf' & Ht' & Hi' & _).
  destruct (run_same_problem cs g0) as (_ & _ & En & Ef & Et & Ei).
  destruct (run_same_problem cs' g0') as (_ & _ & En' & Ef' & Et' & Ei').
  split.
  - cbn [get_info fst]. rewrite En, Ef, Et, Ei, Hn, Hf, Ht, Hi. reflexivity.
  - intros H. apply info_determines_numbers in H as (H1 & H2 & H3 & H4).
    repeat split; congruence.
Qed.

End Describing.

(** ** Further behaviour on concrete problems *)

Lemma squeezed_single_target_drawn :
  squeezed_regression 10 3 2 1
  = Some (single_target_X, mk_ndarray [10]%nat (count_from 1000 10) false).
Proof. reflexivity. Qed.

Lemma squeezed_single_target_shapes :
  make_regression_shapes 10 3 1 single_target_X
    (mk_ndarray [10]%nat (count_from 1000 10) false).
Proof. unfold make_regression_shapes, well_shaped. repeat split; try lia. Qed.

Lemma squeezed_two_targets_drawn :
  squeezed_regression 3 2 1 2
  = Some (two_targets_X, mk_ndarray [3; 2]%nat (count_from 1000 6) false).
Proof. reflexivity. Qed.

Lemma squeezed_two_targets_shapes :
  make_regression_shapes 3 2 2 two_targets_X
    (mk_ndarray [3; 2]%nat (count_from 1000 6) false).
Proof. unfold make_regression_shapes, well_shaped. repeat split; try lia. Qed.

Lemma integers_totally_ordered : total_order Z.leb Z.eqb.
Proof.
  unfold total_order. split; [apply Z.eqb_eq|]. split; [|split].
  - intros a b. rewrite !Z.leb_le. lia.
  - intros a b c. rewrite !Z.leb_le. lia.
  - intros a b. rewrite !Z.leb_le. lia.
Qed.

Lemma in_range_batch_witness :
  exists g0 : RegressionGenerator Z,
    single_target = Some g0 /\
    batch_contents (fst (next_instance 3 (run [NextInstance 4] g0))) =
      (Some ([3; 3]%nat, [12; 13; 14; 15; 16; 17; 18; 19; 20]),
       Some ([3]%nat, [1004; 1005; 1006])).
Proof.
  eexists. split; [reflexivity|].
  exact (in_range_batch_is_the_requested_rows 0 sample_regression 10 3 2 1
           single_target_X single_target_y _ [NextInstance 4] 3
           single_target_drawn single_target_shapes eq_refl
           ltac:(lia) ltac:(vm_compute; discriminate) ltac:(lia)
           ltac:(vm_compute; discriminate)).
Defined.

Lemma consecutive_batches_witness :
  exists g0 : RegressionGenerator Z,
    single_target = Some g0 /\
    let g := run [NextInstance 4] g0 in
    batch_data (fst (fst (next_instance 3 g)))
      ++ batch_data (fst (fst (next_instance 10 (snd (next_instance 3 g)))))
    = batch_data (fst (fst (next_instance 13 g))) /\
    batch_data (fst (fst (next_instance 13 g)))
    = [12; 13; 14; 15; 16; 17; 18; 19; 20; 21; 22; 23; 24; 25; 26; 27; 28; 29].
Proof.
  eexists. split; [reflexivity|].
  destruct (consecutive_batches_join 0 sample_regression 10 3 2 1
              single_target_X single_target_y _ [NextInstance 4] 3 10
              single_target_drawn single_target_shapes eq_refl
              nonnegative_batches_4 ltac:(lia) ltac:(lia))
    as (Hx & _ & _).
  split; [exact Hx | reflexivity].
Defined.

Lemma empty_request_witness :
  exists g0 : RegressionGenerator Z,
    single_target = Some g0 /\
    batch_contents (fst (next_instance 0 (run [NextInstance 4] g0))) =
      (Some ([0; 3]%nat, []), Some ([0]%nat, [])) /\
    instance_index (snd (next_instance 0 (run [NextInstance 4] g0))) = 4.
Proof.
  eexists. split; [reflexivity|].
  exact (empty_request_returns_no_row 0 sample_regression 10 3 2 1
           single_target_X single_target_y _ [NextInstance 4]
           single_target_drawn single_target_shapes eq_refl).
Defined.

Lemma fallback_branch_witness :
  exists g0 : RegressionGenerator Z,
    single_target = Some g0 /\
    exists features targets : ndarray Z,
      fst (next_instance 10 (run [NextInstance 4] g0)) = (Some features, Some targets) /\
      tl (shape features) = [3%nat] /\
      fst (get_last_instance (snd (next_instance 10 (run [NextInstance 4] g0))))
        = (Some features, Some targets).
Proof.
  eexists. split; [reflexivity|].
  exact (fallback_branch_is_never_taken 0 sample_regression 10 3 2 1
           single_target_X single_target_y _ [NextInstance 4] 10
           single_target_drawn single_target_shapes eq_refl).
Defined.

Lemma exhausted_stream_witness :
  exists g0 : RegressionGenerator Z,
    single_target = Some g0 /\
    let g := run [NextInstance 4] (run [NextInstance 10] g0) in
    fst (has_more_instances g) = false /\
    contents (fst (fst (next_instance 1 g))) = Some ([0; 3]%nat, []) /\
    contents (snd (fst (next_instance 1 g))) = Some ([0]%nat, []).
Proof.
  eexists. split; [reflexivity|].
  destruct (exhausted_stream_stays_exhausted 0 sample_regression 10 3 2 1
              single_target_X single_target_y _ [NextInstance 10] [NextInstance 4] 1
              single_target_drawn single_target_shapes eq_refl eq_refl
              nonnegative_batches_4 ltac:(lia))
    as (Hmore & Hx & Hy).
  split; [exact Hmore|]. split; [exact Hx | exact (Hy eq_refl)].
Defined.

Lemma negative_batch_rewinds_witness :
  exists g0 : RegressionGenerator Z,
    single_target = Some g0 /\
    let g' := snd (next_instance (-4) (run [NextInstance 4] g0)) in
    instance_index g' = 0 /\
    fst (estimated_remaining_instances g') = 10 /\
    fst (next_instance 4 g') = fst (next_instance 4 g0).
Proof.
  eexists. split; [reflexivity|].
  exact (negative_batch_rewinds 0 sample_regression 10 3 2 1 _ [NextInstance 4] 4
           eq_refl).
Defined.

Lemma negative_batch_on_fresh_object_witness :
  exists g0 : RegressionGenerator Z,
    single_target = Some g0 /\
    contents (fst (fst (next_instance (-3) g0))) =
      Some ([7; 3]%nat,
            [0; 1; 2; 3; 4; 5; 6; 7; 8; 9; 10; 11; 12; 13; 14; 15; 16; 17; 18; 19; 20]) /\
    instance_index (snd (next_instance (-3) g0)) = -3 /\
    fst (estimated_remaining_instances (snd (next_instance (-3) g0))) = 13.
Proof.
  eexists. split; [reflexivity|].
  destruct (negative_batch_on_fresh_object 0 sample_regression 10 3 2 1
              single_target_X single_target_y _ 3
              single_target_drawn single_target_shapes eq_refl ltac:(lia))
    as (Hx & _ & Hc & Hrem).
  split; [exact Hx|]. split; [exact Hc | exact Hrem].
Defined.

Lemma single_target_construction_witness :
  exists g0 : RegressionGenerator Z,
    __init__ 0 squeezed_regression 10 3 2 1 = Some g0 /\
    X g0 = single_target_X /\
    shape (y g0) = [10; 1]%nat /\
    data (y g0) = count_from 1000 10 /\
    instance_index g0 = 0.
Proof.
  exact (single_target_construction_succeeds 0 squeezed_regression 10 3 2
           single_target_X (mk_ndarray [10]%nat (count_from 1000 10) false)
           squeezed_single_target_drawn squeezed_single_target_shapes).
Defined.

Lemma several_targets_construction_witness :
  __init__ 0 squeezed_regression 3 2 1 2 = None /\
  exists g0 : RegressionGenerator Z,
    __init__ 0 sample_regression 3 2 1 2 = Some g0 /\
    shape (y g0) = [6; 2]%nat /\
    data (y g0) = [1000; 1001; 1002; 1003; 1004; 1005] ++ [0; 0; 0; 0; 0; 0] /\
    length (data two_targets_y) = 6%nat.
Proof.
  split.
  - exact (proj1 (several_targets_construction_pads_with_zeros 0 squeezed_regression
                    3 2 1 2 two_targets_X
                    (mk_ndarray [3; 2]%nat (count_from 1000 6) false)
                    squeezed_two_targets_drawn squeezed_two_targets_shapes
                    ltac:(lia) ltac:(lia)) eq_refl).
  - exact (proj2 (several_targets_construction_pads_with_zeros 0 sample_regression
                    3 2 1 2 two_targets_X two_targets_y
                    two_targets_drawn two_targets_shapes
                    ltac:(lia) ltac:(lia)) eq_refl).
Defined.

Lemma several_targets_overrun_witness :
  exists g0 : RegressionGenerator Z,
    two_targets = Some g0 /\
    batch_contents (fst (next_instance 2 (run [NextInstance 3] g0))) =
      (Some ([0; 2]%nat, []), Some ([2; 2]%nat, [0; 0; 0; 0])).
Proof.
  eexists. split; [reflexivity|].
  exact (several_targets_overrun_returns_zero_targets 0 sample_regression 3 2 1 2
           two_targets_X two_targets_y _ [NextInstance 3] 2
           two_targets_drawn two_targets_shapes eq_refl
           ltac:(lia) ltac:(vm_compute; discriminate) ltac:(lia)
           ltac:(vm_compute; discriminate)).
Defined.

Lemma get_classes_witness :
  exists g0 : RegressionGenerator Z,
    two_targets = Some g0 /\
    (forall v, In v (data (fst (get_classes Z.leb Z.eqb g0))) <-> In v (data (y g0))) /\
    NoDup (data (fst (get_classes Z.leb Z.eqb g0))) /\
    data (fst (get_classes Z.leb Z.eqb g0)) = [0; 1000; 1001; 1002; 1003; 1004; 1005].
Proof.
  eexists. split; [reflexivity|].
  destruct (get_classes_lists_each_value_once Z.leb Z.eqb
              (mk_generator two_targets_X
                 (mk_ndarray [6; 2]%nat
                    (count_from 1000 6 ++ [0; 0; 0; 0; 0; 0]) true)
                 3 2 2 1 0 None None)
              integers_totally_ordered)
    as (Hin & _ & Hnd & _).
  split; [exact Hin|]. split; [exact Hnd | reflexivity].
Defined.

Lemma get_classes_of_generated_targets_witness :
  exists g0 : RegressionGenerator Z,
    two_targets = Some g0 /\
    (In 0 (data (fst (get_classes Z.leb Z.eqb (run [NextInstance 1] g0))))
     <-> In 0 (data two_targets_y) \/ 0 = 0).
Proof.
  eexists. split; [reflexivity|].
  exact (proj2 (get_classes_of_generated_targets 0 sample_regression Z.leb Z.eqb
                  3 2 1 2 two_targets_X two_targets_y _ [NextInstance 1] 0
                  Z.eqb_eq two_targets_drawn two_targets_shapes eq_refl)
           ltac:(lia) ltac:(lia)).
Defined.

Lemma get_info_witness :
  exists g0 : RegressionGenerator Z,
    single_target = Some g0 /\
    fst (get_info (run [NextInstance 4] g0)) =
      "RegressionGenerator: n_samples: 10 - n_features: 3 - n_informative: 2 - n_targets: 1"%string /\
    (fst (get_info (run [NextInstance 4] g0)) = fst (get_info g0) ->
     10 = 10 /\ 3 = 3 /\ 2 = 2 /\ 1 = 1).
Proof.
  eexists. split; [reflexivity|].
  exact (get_info_determines_the_parameters 0 sample_regression
           10 3 2 1 10 3 2 1 _ _ [NextInstance 4] [] eq_refl eq_refl).
Defined.
